(** * MetaAPI gateway (server.js): a shallow embedding and its properties

    The server is an Express application whose POST routes parse a JSON
    body, talk to the MetaApi SDK and answer with a JSON document.  The
    embedding below keeps the three things the routes depend on apart:

    - JavaScript values ([jsval]), with the coercions the routes apply to
      them (truthiness, [||], destructuring defaults, conversion to a
      string or a number, [slice]), each of which throws where
      JavaScript throws;
    - the outside world ([world]): the SDK, answering every call with a
      value or a thrown value, and the clock;
    - the routes themselves, written in a state-and-exception monad [M]
      that records every effect in a trace, statement by statement as in
      server.js, the [console.log] lines included for the conversions
      their template literals make.

    Conventions.  [req.body] is the object express.json() parsed.  An
    object is its own properties, all of them data: what JSON gives.  The
    SDK's methods resolve to values of the shape the routes use them at
    (an account object, a list of positions, ...) or reject with any
    value.  A response is the status and the value handed to [res.json];
    a handler that throws writes none.  server.js defines the accounts
    and test-connection routes a second time further down, with the same
    text; they are modelled once. *)

From Stdlib Require Import ZArith Ascii SpecFloat.
From stdpp Require Import gmap strings list fin_maps pretty.

#[local] Set Warnings "-register-all".
#[local] Open Scope Z_scope.

(** ** JavaScript values *)

(** A Number is an IEEE 754 binary64 value; [spec_float] is the Standard
    Library's datatype for those (one NaN, two zeros, two infinities). *)
Abbreviation number := spec_float.

Inductive jsval : Type :=
  | JUndefined
  | JNull
  | JBool (b : bool)
  | JNum (n : number)
  | JStr (s : string)
  | JArr (l : list jsval)
  | JObj (o : gmap string jsval).

(** A plain object: own properties by name. *)
Abbreviation obj := (gmap string jsval).

(** An expression returns a value or throws one. *)
Inductive result (A : Type) : Type :=
  | Val (a : A)
  | Exc (error : jsval).
Arguments Val {A} a.
Arguments Exc {A} error.

(** [o.k]: reading a property that is not there gives [undefined]. *)
Definition get (o : obj) (k : string) : jsval := default JUndefined (o !! k).

(** The Number with the value of an integer literal of the source. *)
Definition num_of_Z (z : Z) : number := binary_normalize 53 1024 z 0 false.

(** [NaN], and the two tests ToBoolean makes on a Number. *)
Definition NaN : number := S754_nan.

Definition num_is_nan (n : number) : bool :=
  match n with S754_nan => true | _ => false end.

Definition num_is_zero (n : number) : bool :=
  match n with S754_zero _ => true | _ => false end.

(** ToBoolean. *)
Definition truthy (v : jsval) : bool :=
  match v with
  | JUndefined | JNull => false
  | JBool b => b
  | JNum n => negb (num_is_zero n || num_is_nan n)
  | JStr s => negb (String.eqb s "")
  | JArr _ | JObj _ => true
  end.

(** [a || b]. *)
Definition js_or (a b : jsval) : jsval := if truthy a then a else b.

(** [const { k = d } = o]: the default applies to [undefined] only. *)
Definition get_default (o : obj) (k : string) (d : jsval) : jsval :=
  match get o k with JUndefined => d | v => v end.

(** A TypeError, as the engine throws it. *)
Definition TypeError (message : string) : jsval :=
  JObj {[ "name" := JStr "TypeError"; "message" := JStr message ]}.

(** [error.message] for whatever was thrown: reading a property of
    [undefined] or [null] throws; a boolean, number, string or array has
    no such property. *)
Definition message_of (error : jsval) : jsval :=
  match error with JObj o => get o "message" | _ => JUndefined end.

Definition read_message (error : jsval) : result jsval :=
  match error with
  | JUndefined =>
      Exc (TypeError "Cannot read properties of undefined (reading 'message')")
  | JNull => Exc (TypeError "Cannot read properties of null (reading 'message')")
  | _ => Val (message_of error)
  end.

Inductive integer_or_infinity : Type :=
  | NegInfinity
  | Integer (z : Z)
  | PosInfinity.

(** ToIntegerOrInfinity on a Number: truncation towards zero. *)
Definition ToIntegerOrInfinity (n : number) : integer_or_infinity :=
  match n with
  | S754_nan | S754_zero _ => Integer 0
  | S754_infinity s => if s then NegInfinity else PosInfinity
  | S754_finite s m e =>
      let mag := Z.shiftl (Z.pos m) e in
      Integer (if s then - mag else mag)
  end.

(** A Date object: its time value in milliseconds, or an invalid date. *)
Inductive date : Type :=
  | DateMs (t : Z)
  | InvalidDate.

(** TimeClip of an integral time value. *)
Definition TimeClip (t : Z) : date :=
  if Z.abs t <=? 8640000000000000 then DateMs t else InvalidDate.

(** The parts of the language runtime the routes call and this
    development does not define: printing and parsing numbers, Unicode
    case mapping, date parsing.  None of them throws.  Every theorem holds
    for any implementation. *)
Class Runtime := {
  (** Number::toString *)
  NumberToString : number -> string;
  (** [s.toUpperCase()] *)
  toUpperCase : string -> string;
  (** [parseFloat] on a string *)
  parseFloat_string : string -> number;
  (** ToNumber on a string *)
  StringToNumber : string -> number;
  (** [Date.parse] *)
  Date_parse : string -> date;
}.

Section Coercions.
Context {rt : Runtime}.

(** ToString, as a template literal, [parseFloat], [slice] and
    [new Date] apply it.  An object whose own properties include
    [toString] has lost [Object.prototype.toString] to a value that is
    not a function, and [valueOf] gives the object back: the conversion
    throws.  An array is joined with commas, [undefined] and [null]
    elements giving the empty string. *)
Fixpoint ToString (v : jsval) : result string :=
  match v with
  | JUndefined => Val "undefined"
  | JNull => Val "null"
  | JBool b => Val (if b then "true" else "false")
  | JNum n => Val (NumberToString n)
  | JStr s => Val s
  | JObj o =>
      match o !! "toString" with
      | Some _ => Exc (TypeError "Cannot convert object to primitive value")
      | None => Val "[object Object]"
      end
  | JArr l =>
      match
        (fix strings (l : list jsval) : result (list string) :=
           match l with
           | [] => Val []
           | x :: l' =>
               match
                 match x with JUndefined | JNull => Val "" | _ => ToString x end
               with
               | Exc error => Exc error
               | Val s =>
                   match strings l' with
                   | Exc error => Exc error
                   | Val ss => Val (s :: ss)
                   end
               end
           end) l
      with
      | Val ss => Val (String.concat "," ss)
      | Exc error => Exc error
      end
  end.

(** [parseFloat(v)] converts its argument to a string first. *)
Definition parseFloat (v : jsval) : result number :=
  match ToString v with
  | Val s => Val (parseFloat_string s)
  | Exc error => Exc error
  end.

(** ToNumber; an object or array goes through its string. *)
Definition ToNumber (v : jsval) : result number :=
  match v with
  | JUndefined => Val NaN
  | JNull => Val (S754_zero false)
  | JBool b => Val (if b then num_of_Z 1 else S754_zero false)
  | JNum n => Val n
  | JStr s => Val (StringToNumber s)
  | JArr _ | JObj _ =>
      match ToString v with
      | Val s => Val (StringToNumber s)
      | Exc error => Exc error
      end
  end.

(** [new Date(v)] *)
Definition new_Date_of (v : jsval) : result date :=
  match v with
  | JStr s => Val (Date_parse s)
  | JArr _ | JObj _ =>
      match ToString v with
      | Val s => Val (Date_parse s)
      | Exc error => Exc error
      end
  | _ =>
      match ToNumber v with
      | Val n =>
          Val (if num_is_nan n then InvalidDate
               else match ToIntegerOrInfinity n with
                    | Integer t => TimeClip t
                    | _ => InvalidDate
                    end)
      | Exc error => Exc error
      end
  end.

(** The first [final] elements of [l], [final] computed by [slice] from
    the integer its second argument converts to. *)
Definition slice_to {A : Type} (l : list A) (relativeEnd : integer_or_infinity) : list A :=
  match relativeEnd with
  | NegInfinity => []
  | PosInfinity => l
  | Integer z =>
      let len := Z.of_nat (length l) in
      let final := if z <? 0 then Z.max (len + z) 0 else Z.min z len in
      take (Z.to_nat final) l
  end.

(** [l.slice(0, e)] *)
Definition slice0 {A : Type} (l : list A) (e : jsval) : result (list A) :=
  match e with
  | JUndefined => Val l
  | _ =>
      match ToNumber e with
      | Val n => Val (slice_to l (ToIntegerOrInfinity n))
      | Exc error => Exc error
      end
  end.
End Coercions.

(** ** The outside world *)

(** Everything a route does outside its own frame, in the order of the
    source: the SDK calls and the two ways it reads the clock. *)
Inductive effect : Type :=
  | NewMetaApi (token : jsval)
  | GetAccountsWithClassicPagination
  | GetAccount (accountId : jsval)
  | Deploy
  | WaitDeployed
  | GetRPCConnection
  | Connect
  | WaitSynchronized
  | GetAccountInformation
  | CreateMarketBuyOrder (symbol : jsval) (volume : number) (stopLoss takeProfit : jsval)
  | CreateMarketSellOrder (symbol : jsval) (volume : number) (stopLoss takeProfit : jsval)
  | GetPositions
  | ClosePosition (positionId : jsval)
  | GetHistoryDealsByTimeRange (startTime endTime : date)
  | DateNow
  | NewDate.

(** What a request has done so far, oldest effect first. *)
Definition trace := list effect.

(** The page [getAccountsWithClassicPagination] resolves to. *)
Record accountsPage := { items : list obj }.

(** What each effect hands back: the SDK's calls resolve or reject, the
    clock gives a time value in milliseconds. *)
Definition answer (e : effect) : Type :=
  match e with
  | NewMetaApi _ => result unit
  | GetAccountsWithClassicPagination => result accountsPage
  | GetAccount _ => result obj
  | Deploy | WaitDeployed | GetRPCConnection | Connect | WaitSynchronized => result unit
  | GetAccountInformation => result obj
  | CreateMarketBuyOrder _ _ _ _ | CreateMarketSellOrder _ _ _ _ => result obj
  | GetPositions => result (list obj)
  | ClosePosition _ => result obj
  | GetHistoryDealsByTimeRange _ _ => result (list obj)
  | DateNow | NewDate => Z
  end.

(** The world answers an effect knowing everything that happened before. *)
Record world := { respond : forall e : effect, trace -> answer e }.

(** ** The monad of a route: world, trace, exceptions *)

Definition M (A : Type) : Type := world -> trace -> result A * trace.

(** Returning, throwing and sequencing ([await] included). *)
Definition ret {A} (a : A) : M A := fun _ tr => (Val a, tr).

Definition throw {A} (error : jsval) : M A := fun _ tr => (Exc error, tr).

Definition bind {A B} (m : M A) (k : A -> M B) : M B :=
  fun w tr =>
    match m w tr with
    | (Val a, tr') => k a w tr'
    | (Exc error, tr') => (Exc error, tr')
    end.

(** An expression that touches nothing outside. *)
Definition lift {A} (r : result A) : M A := fun _ tr => (r, tr).

(** [try { m } catch (error) { h error }] *)
Definition try_catch {A} (m : M A) (h : jsval -> M A) : M A :=
  fun w tr =>
    match m w tr with
    | (Val a, tr') => (Val a, tr')
    | (Exc error, tr') => h error w tr'
    end.

Declare Scope route_scope.
Delimit Scope route_scope with route.
Notation "x <- m ;; k" := (bind m (fun x => k))
  (at level 100, m at next level, right associativity) : route_scope.
Notation "m ;; k" := (bind m (fun _ => k))
  (at level 100, right associativity) : route_scope.
#[local] Open Scope route_scope.

(** Performing an effect: ask the world, then record the effect. *)
Definition perform (e : effect) : world -> trace -> answer e * trace :=
  fun w tr => (respond w e tr, tr ++ [e]).

(** *** The SDK, method by method *)

Definition newMetaApi (token : jsval) : M unit := perform (NewMetaApi token).
Definition getAccountsWithClassicPagination : M accountsPage :=
  perform GetAccountsWithClassicPagination.
Definition getAccount (accountId : jsval) : M obj := perform (GetAccount accountId).
Definition deploy : M unit := perform Deploy.
Definition waitDeployed : M unit := perform WaitDeployed.
Definition getRPCConnection : M unit := perform GetRPCConnection.
Definition connect : M unit := perform Connect.
Definition waitSynchronized : M unit := perform WaitSynchronized.
Definition getAccountInformation : M obj := perform GetAccountInformation.
Definition createMarketBuyOrder (symbol : jsval) (volume : number)
    (stopLoss takeProfit : jsval) : M obj :=
  perform (CreateMarketBuyOrder symbol volume stopLoss takeProfit).
Definition createMarketSellOrder (symbol : jsval) (volume : number)
    (stopLoss takeProfit : jsval) : M obj :=
  perform (CreateMarketSellOrder symbol volume stopLoss takeProfit).
Definition getPositions : M (list obj) := perform GetPositions.
Definition closePosition (positionId : jsval) : M obj :=
  perform (ClosePosition positionId).
Definition getHistoryDealsByTimeRange (startTime endTime : date) : M (list obj) :=
  perform (GetHistoryDealsByTimeRange startTime endTime).

(** *** The clock *)

(** [Date.now()] *)
Definition Date_now : M Z :=
  fun w tr => let (t, tr') := perform DateNow w tr in (Val t, tr').

(** [new Date()] *)
Definition new_Date : M date :=
  fun w tr => let (t, tr') := perform NewDate w tr in (Val (DateMs t), tr').

(** *** The language *)

(** [v === s] for a string literal [s]. *)
Definition strict_eq_str (v : jsval) (s : string) : bool :=
  match v with JStr s' => String.eqb s' s | _ => false end.

(** [v.toUpperCase()]: only strings have the method. *)
Definition call_toUpperCase `{Runtime} (name : string) (v : jsval) : M string :=
  match v with
  | JStr s => ret (toUpperCase s)
  | _ => throw (TypeError (name +:+ ".toUpperCase is not a function"))
  end.

(** [console.log] of a template literal: the interpolated values are
    converted to strings, left to right; printing itself has no effect
    here.  A number of elements is a Number. *)
Fixpoint console_log `{Runtime} (interpolated : list jsval) : M unit :=
  match interpolated with
  | [] => ret tt
  | v :: vs => _ <- lift (ToString v) ;; console_log vs
  end.

Definition length_of {A : Type} (l : list A) : jsval :=
  JNum (num_of_Z (Z.of_nat (length l))).

(** [console.error(text, error)]: the value is inspected, not converted. *)
Definition console_error (error : jsval) : M unit := ret tt.

(** ** The routes *)

Record response := Response { status : nat; body : jsval }.

(** [res.status(c).json(b)] and [res.json(b)] *)
Definition res_status_json (c : nat) (b : obj) : M response := ret (Response c (JObj b)).
Definition res_json (b : obj) : M response := res_status_json 200 b.

(** The [catch] block every route ends with. *)
Definition catch_500 (fallback : string) (error : jsval) : M response :=
  console_error error ;;
  message <- lift (read_message error) ;;
  res_status_json 500
    {[ "success" := JBool false;
       "error" := js_or message (JStr fallback) ]}.

(** GET /health *)
Definition health : M response :=
  res_json {[ "status" := JStr "ok"; "message" := JStr "MetaAPI server running" ]}.

Section Routes.
Context {rt : Runtime}.

(** POST /api/metaapi/accounts *)
Definition accounts_try (req_body : obj) : M response :=
  let token := get req_body "token" in
  if negb (truthy token) then
    res_status_json 400 {[ "error" := JStr "Token is required" ]}
  else
    console_log [] ;;
    newMetaApi token ;;
    accountsData <- getAccountsWithClassicPagination ;;
    let accounts := items accountsData in
    console_log [length_of accounts] ;;
    let cleanAccounts :=
      map (fun acc : obj => JObj
        {[ "id" := get acc "id";
           "name" := get acc "name";
           "type" := get acc "type";
           "login" := get acc "login";
           "server" := get acc "server";
           "region" := get acc "region";
           "state" := get acc "state";
           "connectionStatus" := get acc "connectionStatus";
           "magic" := get acc "magic" ]}) accounts in
    res_json {[ "success" := JBool true; "accounts" := JArr cleanAccounts ]}.

Definition accounts (req_body : obj) : M response :=
  try_catch (accounts_try req_body) (catch_500 "Failed to fetch accounts").

(** POST /api/metaapi/test-connection *)
Definition test_connection_try (req_body : obj) : M response :=
  let token := get req_body "token" in
  let accountId := get req_body "accountId" in
  if negb (truthy token) || negb (truthy accountId) then
    res_status_json 400 {[ "error" := JStr "Token and accountId are required" ]}
  else
    console_log [accountId] ;;
    newMetaApi token ;;
    account <- getAccount accountId ;;
    (if negb (strict_eq_str (get account "state") "DEPLOYED") then
       deploy ;; waitDeployed
     else ret tt) ;;
    getRPCConnection ;;
    connect ;;
    waitSynchronized ;;
    accountInfo <- getAccountInformation ;;
    res_json
      {[ "success" := JBool true;
         "message" := JStr "Connection successful";
         "balance" := get accountInfo "balance";
         "equity" := get accountInfo "equity";
         "currency" := get accountInfo "currency" ]}.

Definition test_connection (req_body : obj) : M response :=
  try_catch (test_connection_try req_body) (catch_500 "Connection test failed").

(** POST /api/metaapi/execute-trade *)
Definition execute_trade_try (req_body : obj) : M response :=
  let token := get req_body "token" in
  let accountId := get req_body "accountId" in
  let symbol := get req_body "symbol" in
  let direction := get req_body "direction" in
  let volume := get req_body "volume" in
  let stopLoss := get req_body "stopLoss" in
  let takeProfit := get req_body "takeProfit" in
  if negb (truthy token) || negb (truthy accountId) || negb (truthy symbol)
     || negb (truthy direction) || negb (truthy volume) then
    res_status_json 400
      {[ "success" := JBool false;
         "error" := JStr "Missing required fields: token, accountId, symbol, direction, volume" ]}
  else
    console_log [direction; volume; symbol] ;;
    newMetaApi token ;;
    account <- getAccount accountId ;;
    (if negb (strict_eq_str (get account "state") "DEPLOYED") then
       console_log [] ;;
       deploy ;; waitDeployed
     else ret tt) ;;
    getRPCConnection ;;
    connect ;;
    waitSynchronized ;;
    let placed (result : obj) :=
      console_log [get result "orderId"] ;;
      res_json
        {[ "success" := JBool true;
           "result" := JObj
             {[ "order" := get result "orderId";
                "position" := get result "positionId";
                "status" := JStr "executed" ]} ]} in
    upper <- call_toUpperCase "direction" direction ;;
    if String.eqb upper "BUY" then
      volume' <- lift (parseFloat volume) ;;
      stopLoss' <- lift (parseFloat stopLoss) ;;
      takeProfit' <- lift (parseFloat takeProfit) ;;
      result <- createMarketBuyOrder symbol volume'
                  (js_or (JNum stopLoss') JUndefined)
                  (js_or (JNum takeProfit') JUndefined) ;;
      placed result
    else
      upper <- call_toUpperCase "direction" direction ;;
      if String.eqb upper "SELL" then
        volume' <- lift (parseFloat volume) ;;
        stopLoss' <- lift (parseFloat stopLoss) ;;
        takeProfit' <- lift (parseFloat takeProfit) ;;
        result <- createMarketSellOrder symbol volume'
                    (js_or (JNum stopLoss') JUndefined)
                    (js_or (JNum takeProfit') JUndefined) ;;
        placed result
      else
        res_status_json 400
          {[ "success" := JBool false;
             "error" := JStr "Direction must be BUY or SELL" ]}.

Definition execute_trade (req_body : obj) : M response :=
  try_catch (execute_trade_try req_body) (catch_500 "Trade execution failed").

(** POST /api/metaapi/get-positions *)
Definition get_positions_try (req_body : obj) : M response :=
  let token := get req_body "token" in
  let accountId := get req_body "accountId" in
  if negb (truthy token) || negb (truthy accountId) then
    res_status_json 400 {[ "error" := JStr "Token and accountId are required" ]}
  else
    console_log [accountId] ;;
    newMetaApi token ;;
    account <- getAccount accountId ;;
    (if negb (strict_eq_str (get account "state") "DEPLOYED") then
       deploy ;; waitDeployed
     else ret tt) ;;
    getRPCConnection ;;
    connect ;;
    waitSynchronized ;;
    positions <- getPositions ;;
    console_log [length_of positions] ;;
    res_json
      {[ "success" := JBool true;
         "positions" := JArr (map (fun pos : obj => JObj
           {[ "id" := get pos "id";
              "symbol" := get pos "symbol";
              "type" := get pos "type";
              "volume" := get pos "volume";
              "openPrice" := get pos "openPrice";
              "currentPrice" := get pos "currentPrice";
              "profit" := get pos "profit";
              "swap" := get pos "swap";
              "commission" := get pos "commission";
              "stopLoss" := get pos "stopLoss";
              "takeProfit" := get pos "takeProfit";
              "time" := get pos "time" ]}) positions) ]}.

Definition get_positions (req_body : obj) : M response :=
  try_catch (get_positions_try req_body) (catch_500 "Failed to fetch positions").

(** POST /api/metaapi/close-position *)
Definition close_position_try (req_body : obj) : M response :=
  let token := get req_body "token" in
  let accountId := get req_body "accountId" in
  let positionId := get req_body "positionId" in
  if negb (truthy token) || negb (truthy accountId) || negb (truthy positionId) then
    res_status_json 400
      {[ "error" := JStr "Token, accountId, and positionId are required" ]}
  else
    console_log [positionId] ;;
    newMetaApi token ;;
    account <- getAccount accountId ;;
    getRPCConnection ;;
    connect ;;
    waitSynchronized ;;
    result <- closePosition positionId ;;
    console_log [positionId] ;;
    res_json
      {[ "success" := JBool true;
         "result" := JObj
           {[ "orderId" := get result "orderId";
              "message" := JStr "Position closed successfully" ]} ]}.

Definition close_position (req_body : obj) : M response :=
  try_catch (close_position_try req_body) (catch_500 "Failed to close position").

(** The body of [for (const position of positions)] in
    close-all-positions: one [closePosition] per position, its outcome
    pushed onto [results]; the inner [catch] reads [error.message]. *)
Fixpoint close_each (positions : list obj) (results : list jsval) : M (list jsval) :=
  match positions with
  | [] => ret results
  | position :: positions' =>
      results <-
        try_catch
          (result <- closePosition (get position "id") ;;
           ret (results ++ [JObj
             {[ "positionId" := get position "id";
                "success" := JBool true;
                "orderId" := get result "orderId" ]}]))
          (fun error =>
           message <- lift (read_message error) ;;
           ret (results ++ [JObj
             {[ "positionId" := get position "id";
                "success" := JBool false;
                "error" := message ]}])) ;;
      close_each positions' results
  end.

(** [r => r.success] on an element of [results]. *)
Definition r_success (r : jsval) : bool :=
  match r with JObj o => truthy (get o "success") | _ => false end.

(** POST /api/metaapi/close-all-positions *)
Definition close_all_positions_try (req_body : obj) : M response :=
  let token := get req_body "token" in
  let accountId := get req_body "accountId" in
  if negb (truthy token) || negb (truthy accountId) then
    res_status_json 400 {[ "error" := JStr "Token and accountId are required" ]}
  else
    console_log [accountId] ;;
    newMetaApi token ;;
    account <- getAccount accountId ;;
    getRPCConnection ;;
    connect ;;
    waitSynchronized ;;
    positions <- getPositions ;;
    results <- close_each positions [] ;;
    console_log [length_of (List.filter r_success results); length_of positions] ;;
    res_json
      {[ "success" := JBool true;
         "message" := JStr ("Closed " +:+
            pretty (length (List.filter r_success results)) +:+ " positions");
         "results" := JArr results ]}.

Definition close_all_positions (req_body : obj) : M response :=
  try_catch (close_all_positions_try req_body)
    (catch_500 "Failed to close all positions").

(** POST /api/metaapi/get-history *)
Definition get_history_try (req_body : obj) : M response :=
  let token := get req_body "token" in
  let accountId := get req_body "accountId" in
  let limit := get_default req_body "limit" (JNum (num_of_Z 20)) in
  let startTime := get req_body "startTime" in
  if negb (truthy token) || negb (truthy accountId) then
    res_status_json 400 {[ "error" := JStr "Token and accountId are required" ]}
  else
    console_log [accountId] ;;
    newMetaApi token ;;
    account <- getAccount accountId ;;
    (if negb (strict_eq_str (get account "state") "DEPLOYED") then
       deploy ;; waitDeployed
     else ret tt) ;;
    getRPCConnection ;;
    connect ;;
    waitSynchronized ;;
    historyStartTime <-
      (if truthy startTime then lift (new_Date_of startTime)
       else
         now <- Date_now ;;
         ret (TimeClip (now - 30 * 24 * 60 * 60 * 1000))) ;;
    endTime <- new_Date ;;
    deals <- getHistoryDealsByTimeRange historyStartTime endTime ;;
    console_log [length_of deals] ;;
    returned <- lift (slice0 (map (fun deal : obj => JObj
      {[ "id" := get deal "id";
         "symbol" := get deal "symbol";
         "type" := get deal "type";
         "volume" := get deal "volume";
         "entryPrice" := get deal "entryPrice";
         "price" := get deal "price";
         "profit" := get deal "profit";
         "commission" := get deal "commission";
         "swap" := get deal "swap";
         "time" := get deal "time";
         "platform" := get deal "platform";
         "magic" := get deal "magic";
         "comment" := get deal "comment" ]}) deals) limit) ;;
    res_json {[ "success" := JBool true; "deals" := JArr returned ]}.

Definition get_history (req_body : obj) : M response :=
  try_catch (get_history_try req_body) (catch_500 "Failed to fetch history").
End Routes.

(** Running a route on a request: the response, or what the handler
    threw, and everything it did. *)
Definition run {A} (m : M A) (w : world) : result A * trace := m w [].
(** ** Routing *)

Inductive route : Type :=
  | POST_accounts
  | POST_test_connection
  | POST_execute_trade
  | POST_get_positions
  | POST_close_position
  | POST_close_all_positions
  | POST_get_history.

Section Routing.
Context {rt : Runtime}.

Definition handler (r : route) : obj -> M response :=
  match r with
  | POST_accounts => accounts
  | POST_test_connection => test_connection
  | POST_execute_trade => execute_trade
  | POST_get_positions => get_positions
  | POST_close_position => close_position
  | POST_close_all_positions => close_all_positions
  | POST_get_history => get_history
  end.

(** The [try] block of a route. *)
Definition try_block (r : route) : obj -> M response :=
  match r with
  | POST_accounts => accounts_try
  | POST_test_connection => test_connection_try
  | POST_execute_trade => execute_trade_try
  | POST_get_positions => get_positions_try
  | POST_close_position => close_position_try
  | POST_close_all_positions => close_all_positions_try
  | POST_get_history => get_history_try
  end.
End Routing.

(** The text a route's [catch] block falls back to. *)
Definition fallback (r : route) : string :=
  match r with
  | POST_accounts => "Failed to fetch accounts"
  | POST_test_connection => "Connection test failed"
  | POST_execute_trade => "Trade execution failed"
  | POST_get_positions => "Failed to fetch positions"
  | POST_close_position => "Failed to close position"
  | POST_close_all_positions => "Failed to close all positions"
  | POST_get_history => "Failed to fetch history"
  end.

(** The fields the guard at the top of a route tests. *)
Definition required_fields (r : route) : list string :=
  match r with
  | POST_accounts => ["token"]
  | POST_test_connection | POST_get_positions | POST_close_all_positions
  | POST_get_history => ["token"; "accountId"]
  | POST_execute_trade => ["token"; "accountId"; "symbol"; "direction"; "volume"]
  | POST_close_position => ["token"; "accountId"; "positionId"]
  end.

(** ** A small runtime and stub providers, for running the routes *)

Module Sample.

Definition ascii_upper (c : ascii) : ascii :=
  let n := nat_of_ascii c in
  if ((97 <=? n) && (n <=? 122))%nat then ascii_of_nat (n - 32) else c.

Fixpoint upper (s : string) : string :=
  match s with
  | EmptyString => EmptyString
  | String c s' => String (ascii_upper c) (upper s')
  end.

(** The value of the longest prefix of decimal digits, if there is one. *)
Fixpoint digits (s : string) (acc : option Z) : option Z :=
  match s with
  | EmptyString => acc
  | String c s' =>
      let n := nat_of_ascii c in
      if ((48 <=? n) && (n <=? 57))%nat
      then digits s' (Some (10 * default 0 acc + Z.of_nat (n - 48)))
      else acc
  end.

(** A runtime that is right on what the examples use: ASCII letters,
    integers, strings of decimal digits, no date strings. *)
Definition runtime : Runtime :=
  {| NumberToString n :=
       match ToIntegerOrInfinity n with
       | Integer z => if num_is_nan n then "NaN" else pretty z
       | PosInfinity => "Infinity"
       | NegInfinity => "-Infinity"
       end;
     toUpperCase := upper;
     parseFloat_string s :=
       match digits s None with Some z => num_of_Z z | None => NaN end;
     StringToNumber s :=
       if String.eqb s "" then S754_zero false
       else match digits s None with Some z => num_of_Z z | None => NaN end;
     Date_parse _ := InvalidDate |}.

(** A provider that knows one account, with the given positions and
    deals; [closes] decides each [closePosition], [now] is the clock. *)
Definition provider (account : obj) (positions deals : list obj)
    (closes : jsval -> result obj) (now : trace -> Z) : world :=
  {| respond e tr :=
       match e as e return answer e with
       | NewMetaApi _ => Val tt
       | GetAccountsWithClassicPagination => Val {| items := [account] |}
       | GetAccount _ => Val account
       | Deploy | WaitDeployed | GetRPCConnection | Connect | WaitSynchronized => Val tt
       | GetAccountInformation =>
           Val {[ "balance" := JNum (num_of_Z 1000);
                  "equity" := JNum (num_of_Z 1000);
                  "currency" := JStr "USD" ]}
       | CreateMarketBuyOrder _ _ _ _ | CreateMarketSellOrder _ _ _ _ =>
           Val {[ "orderId" := JStr "o1"; "positionId" := JStr "p1" ]}
       | GetPositions => Val positions
       | ClosePosition positionId => closes positionId
       | GetHistoryDealsByTimeRange _ _ => Val deals
       | DateNow | NewDate => now tr
       end |}.

(** A provider every call of which throws [error], starting with the
    construction of the client. *)
Definition broken (error : jsval) : world :=
  {| respond e tr :=
       match e as e return answer e with
       | DateNow | NewDate => 0
       | _ => Exc error
       end |}.

Definition account (state : string) : obj :=
  {[ "id" := JStr "acc-1"; "name" := JStr "demo"; "state" := JStr state;
     "accessToken" := JStr "secret" ]}.

Definition position (id : string) : obj :=
  {[ "id" := JStr id; "symbol" := JStr "EURUSD" ]}.

Definition closed (positionId : jsval) : result obj :=
  Val {[ "orderId" := JStr "c1" ]}.

Definition credentials : obj :=
  {[ "token" := JStr "t"; "accountId" := JStr "acc-1" ]}.

(** [n] deals, numbered from 0. *)
Definition deals (n : nat) : list obj :=
  (fun i : nat =>
     ({[ "id" := JStr (String (ascii_of_nat (48 + i)) ""); "symbol" := JStr "EURUSD" ]} : obj))
    <$> seq 0 n.

(** The provider of the get-history examples: a deployed account with 50
    deals, the clock at [now]. *)
Definition history_provider (now : Z) : world :=
  provider (account "DEPLOYED") [] (deals 50) closed (fun _ => now).

(** What get-history does before it queries the deals, the clock at [now]. *)
Definition history_session : trace :=
  [NewMetaApi (JStr "t"); GetAccount (JStr "acc-1");
   GetRPCConnection; Connect; WaitSynchronized; DateNow; NewDate].

(** An object JavaScript cannot convert to a string or a number: JSON
    [{"toString": 0}]. *)
Definition unconvertible : jsval := JObj {[ "toString" := JNum (num_of_Z 0) ]}.

(** A request to buy one lot. *)
Definition buy_order : obj :=
  {[ "token" := JStr "t"; "accountId" := JStr "acc-1"; "symbol" := JStr "EURUSD";
     "direction" := JStr "buy"; "volume" := JStr "1" ]}.

(** The session every example opens on a deployed account. *)
Definition session : trace :=
  [NewMetaApi (JStr "t"); GetAccount (JStr "acc-1");
   GetRPCConnection; Connect; WaitSynchronized].


(** A provider whose clock advances by a millisecond with every effect. *)
Definition ticking_provider (now : Z) : world :=
  provider (account "DEPLOYED") [] (deals 50) closed
    (fun tr => now + Z.of_nat (length tr)).

End Sample.

(** * Vocabulary of the properties *)

(** The documented field set of an account projection. *)
Definition account_fields : gset string :=
  {[ "id"; "name"; "type"; "login"; "server"; "region"; "state";
     "connectionStatus"; "magic" ]}.

(** C7, as the specification states it: whatever exception [error] leaves
    the [try] block of route [r], the answer is status 500 with the body
    [{success: false, error: error.message}]. *)
Definition reports_exception_message `{Runtime} (r : route) (w : world)
    (req_body : obj) : Prop :=
  forall (error : jsval) (tr : trace),
    run (try_block r req_body) w = (Exc error, tr) ->
    run (handler r req_body) w
      = (Val (Response 500 (JObj {[ "success" := JBool false;
                                    "error" := message_of error ]})), tr).

(** The statements between the guard and the operation in test-connection,
    execute-trade, get-positions and get-history: construct the client,
    look the account up, deploy it unless it says it is deployed, connect
    and wait for synchronization. *)
Definition guarded_session (token accountId : jsval) : M obj :=
  newMetaApi token ;;
  account <- getAccount accountId ;;
  (if negb (strict_eq_str (get account "state") "DEPLOYED") then
     deploy ;; waitDeployed
   else ret tt) ;;
  getRPCConnection ;;
  connect ;;
  waitSynchronized ;;
  ret account.

(** The same statements in close-position and close-all-positions. *)
Definition unguarded_session (token accountId : jsval) : M obj :=
  newMetaApi token ;;
  account <- getAccount accountId ;;
  getRPCConnection ;;
  connect ;;
  waitSynchronized ;;
  ret account.

(** The effects of the lifecycle guard on an account. *)
Definition guard_effects (account : obj) : trace :=
  if strict_eq_str (get account "state") "DEPLOYED" then [] else [Deploy; WaitDeployed].

(** C2, as the specification states it, for a request whose other fields
    are in order: a direction that is neither BUY nor SELL is answered
    with 400 and the provider is not called at all. *)
Definition invalid_direction_not_forwarded `{Runtime} (w : world) (req_body : obj) : Prop :=
  run (execute_trade req_body) w
    = (Val (Response 400 (JObj {[ "success" := JBool false;
                                  "error" := JStr "Direction must be BUY or SELL" ]})), []).

(** The [closePosition] calls for a list of positions, in its order. *)
Definition closes (positions : list obj) : trace :=
  (fun position : obj => ClosePosition (get position "id")) <$> positions.

(** The entry the specification describes for a position, given how its
    [closePosition] ended. *)
Definition close_result (position : obj) (outcome : result obj) : jsval :=
  match outcome with
  | Val result =>
      JObj {[ "positionId" := get position "id"; "success" := JBool true;
              "orderId" := get result "orderId" ]}
  | Exc error =>
      JObj {[ "positionId" := get position "id"; "success" := JBool false;
              "error" := message_of error ]}
  end.


(** C6, as the specification states it: the deal query of the request
    covers exactly 30 days. *)
Definition range_is_30_days `{Runtime} (w : world) (req_body : obj) : Prop :=
  exists (pre : trace) (start finish : Z),
    (run (get_history req_body) w).2
      = pre ++ [GetHistoryDealsByTimeRange (DateMs start) (DateMs finish)]
    /\ finish - start = 30 * 24 * 60 * 60 * 1000.


(** The projection of a deal the route returns. *)
Definition deal_projection (deal : obj) : jsval :=
  JObj {[ "id" := get deal "id"; "symbol" := get deal "symbol";
          "type" := get deal "type"; "volume" := get deal "volume";
          "entryPrice" := get deal "entryPrice"; "price" := get deal "price";
          "profit" := get deal "profit"; "commission" := get deal "commission";
          "swap" := get deal "swap"; "time" := get deal "time";
          "platform" := get deal "platform"; "magic" := get deal "magic";
          "comment" := get deal "comment" ]}.

(** The routes that run the lifecycle guard. *)
Definition guarded (r : route) : bool :=
  match r with
  | POST_test_connection | POST_execute_trade | POST_get_positions
  | POST_get_history => true
  | POST_accounts | POST_close_position | POST_close_all_positions => false
  end.

(** The fields of a position projection. *)
Definition position_fields : gset string :=
  {[ "id"; "symbol"; "type"; "volume"; "openPrice"; "currentPrice"; "profit";
     "swap"; "commission"; "stopLoss"; "takeProfit"; "time" ]}.

(** The effects that place an order. *)
Definition is_order (e : effect) : bool :=
  match e with
  | CreateMarketBuyOrder _ _ _ _ | CreateMarketSellOrder _ _ _ _ => true
  | _ => false
  end.

(** The effects that change what the account holds: placing an order or
    closing a position. *)
Definition is_trade (e : effect) : bool :=
  match e with
  | CreateMarketBuyOrder _ _ _ _ | CreateMarketSellOrder _ _ _ _
  | ClosePosition _ => true
  | _ => false
  end.

(** The routes that only read from the provider. *)
Definition read_only (r : route) : bool :=
  match r with
  | POST_accounts | POST_test_connection | POST_get_positions | POST_get_history => true
  | POST_execute_trade | POST_close_position | POST_close_all_positions => false
  end.

(** The values a JSON body can carry that ToBoolean takes for false. *)
Definition falsy_json (v : jsval) : Prop :=
  v = JNull \/ v = JBool false \/ v = JStr "" \/ v = JNum (S754_zero false)
  \/ v = JNum (S754_zero true).

(** The provider's answer to an order, when the effect is one. *)
Definition order_answer (w : world) (e : effect) (h : trace) : option (result obj) :=
  match e with
  | CreateMarketBuyOrder symbol volume stopLoss takeProfit =>
      Some (respond w (CreateMarketBuyOrder symbol volume stopLoss takeProfit) h)
  | CreateMarketSellOrder symbol volume stopLoss takeProfit =>
      Some (respond w (CreateMarketSellOrder symbol volume stopLoss takeProfit) h)
  | _ => None
  end.

(** [null] and [undefined]: the values a [catch] block cannot read
    [message] from. *)
Definition nullish (v : jsval) : bool :=
  match v with JUndefined | JNull => true | _ => false end.

(** What the provider rejected an effect with, if it did. *)
Definition rejection (w : world) (e : effect) (h : trace) : option jsval :=
  match e with
  | NewMetaApi token =>
      match respond w (NewMetaApi token) h with Exc v => Some v | Val _ => None end
  | GetAccountsWithClassicPagination =>
      match respond w GetAccountsWithClassicPagination h with
      | Exc v => Some v | Val _ => None end
  | GetAccount accountId =>
      match respond w (GetAccount accountId) h with Exc v => Some v | Val _ => None end
  | Deploy => match respond w Deploy h with Exc v => Some v | Val _ => None end
  | WaitDeployed =>
      match respond w WaitDeployed h with Exc v => Some v | Val _ => None end
  | GetRPCConnection =>
      match respond w GetRPCConnection h with Exc v => Some v | Val _ => None end
  | Connect => match respond w Connect h with Exc v => Some v | Val _ => None end
  | WaitSynchronized =>
      match respond w WaitSynchronized h with Exc v => Some v | Val _ => None end
  | GetAccountInformation =>
      match respond w GetAccountInformation h with Exc v => Some v | Val _ => None end
  | CreateMarketBuyOrder symbol volume stopLoss takeProfit =>
      match respond w (CreateMarketBuyOrder symbol volume stopLoss takeProfit) h with
      | Exc v => Some v | Val _ => None end
  | CreateMarketSellOrder symbol volume stopLoss takeProfit =>
      match respond w (CreateMarketSellOrder symbol volume stopLoss takeProfit) h with
      | Exc v => Some v | Val _ => None end
  | GetPositions =>
      match respond w GetPositions h with Exc v => Some v | Val _ => None end
  | ClosePosition positionId =>
      match respond w (ClosePosition positionId) h with
      | Exc v => Some v | Val _ => None end
  | GetHistoryDealsByTimeRange startTime endTime =>
      match respond w (GetHistoryDealsByTimeRange startTime endTime) h with
      | Exc v => Some v | Val _ => None end
  | DateNow | NewDate => None
  end.

(** A provider that, when it rejects, rejects with something other than
    [null] and [undefined], as one that throws Error objects does. *)
Definition rejects_with_values (w : world) : Prop :=
  forall (e : effect) (h : trace) (v : jsval),
    rejection w e h = Some v -> nullish v = false.

(** An effect that carries credentials carries those of the request: no
    second client, no other account. *)
Definition uses_credentials_of (req_body : obj) (e : effect) : Prop :=
  match e with
  | NewMetaApi _ => False
  | GetAccount accountId => accountId = get req_body "accountId"
  | _ => True
  end.

(** * Properties *)

(** ** Reasoning about runs *)

Create HintDb routes.
Create HintDb monad.
#[global] Hint Unfold run handler try_block
  accounts test_connection execute_trade get_positions close_position
  close_all_positions get_history
  accounts_try test_connection_try execute_trade_try get_positions_try
  close_position_try close_all_positions_try get_history_try : routes.
#[global] Hint Unfold try_catch bind ret throw lift catch_500 console_error
  res_json res_status_json length_of
  newMetaApi getAccountsWithClassicPagination getAccount deploy waitDeployed
  getRPCConnection connect waitSynchronized getAccountInformation
  createMarketBuyOrder createMarketSellOrder getPositions closePosition
  getHistoryDealsByTimeRange Date_now new_Date perform call_toUpperCase
  parseFloat : monad.

#[global] Arguments get : simpl never.
#[global] Arguments TimeClip : simpl never.
#[global] Arguments read_message : simpl never.
#[global] Arguments new_Date_of : simpl never.
#[global] Arguments slice0 : simpl never.

(** Open a route up to its first decision. *)
Ltac open_route := autounfold with routes; cbn zeta.

(** Reduce what the monad's operations leave. *)
Ltac reduce := repeat first [progress cbn | progress autounfold with monad].

(** Case on the world's answer to the next SDK call. *)
Ltac next_call :=
  match goal with
  | |- context [respond ?w ?e ?tr] =>
      let a := fresh "a" in
      let Ha := fresh "Ha" in
      destruct (respond w e tr) as [a | a] eqn:Ha; reduce
  end.

(** Rewrite with everything known about the world's answers and about
    the conversions of the request's values. *)
Ltac answers :=
  repeat match goal with
         | Ha : respond _ _ _ = _ |- _ => rewrite Ha; reduce
         | Ha : ToString _ = _ |- _ => rewrite Ha; reduce
         end.

(** Follow a route through every answer the world can give, every test
    on the request and every conversion. *)
Ltac walk_all :=
  repeat first
    [ progress cbn
    | progress autounfold with monad
    | match goal with
      | |- context [truthy (get ?o ?k)] => destruct (truthy (get o k)) eqn:?
      | |- context [strict_eq_str ?v ?s] => destruct (strict_eq_str v s) eqn:?
      | |- context [ToString ?v] => destruct (ToString v) eqn:?
      | |- context [match get ?o ?k with _ => _ end] => destruct (get o k) eqn:?
      | |- context [String.eqb ?a ?b] => destruct (String.eqb a b) eqn:?
      | |- context [new_Date_of ?v] => destruct (new_Date_of v) eqn:?
      | |- context [slice0 ?l ?e] => destruct (slice0 l e) eqn:?
      | |- context [read_message (TypeError ?m)] =>
          change (read_message (TypeError m)) with (Val (message_of (TypeError m)))
      | |- context [read_message ?v] => destruct (read_message v) eqn:?
      | |- context [respond ?w ?e ?tr] =>
          match type of (respond w e tr) with
          | Z => fail 1
          | _ => let a := fresh "a" in
                 let Ha := fresh "Ha" in
                 destruct (respond w e tr) as [a | a] eqn:Ha
          end
      end ].

(** An effect is not in a trace that visibly lacks it. *)
Ltac not_in_trace H :=
  repeat (apply elem_of_cons in H as [H | H]; [discriminate H |]);
  by apply elem_of_nil in H.

Lemma get_missing (o : obj) (k : string) : o !! k = None -> get o k = JUndefined.
Proof. intros Hk. unfold get. by rewrite Hk. Qed.

Lemma get_present (o : obj) (k : string) (v : jsval) : o !! k = Some v -> get o k = v.
Proof. intros Hk. unfold get. by rewrite Hk. Qed.

Lemma missing_falsy (o : obj) (k : string) : o !! k = None -> truthy (get o k) = false.
Proof. intros Hk. by rewrite get_missing. Qed.

Lemma trace_ends_with (tr h : trace) (e : effect) :
  tr = h ++ [e] -> last tr = Some e /\ h = removelast tr.
Proof. intros ->. by rewrite last_snoc, removelast_last. Qed.

(** A [catch] block fails to read [message] off [null] and [undefined]
    only. *)
Lemma read_message_nullish (error : jsval) :
  nullish error = false -> read_message error = Val (message_of error).
Proof. by destruct error. Qed.

Lemma read_message_throws (error thrown : jsval) :
  read_message error = Exc thrown -> nullish error = true.
Proof. by destruct error. Qed.

(** The guard at the top of every route: a falsy required field ends the
    request with a 400 before anything else happens. *)
Lemma falsy_field_rejected `{Runtime} (w : world) (r : route) (req_body : obj)
    (field : string) :
  field ∈ required_fields r ->
  truthy (get req_body field) = false ->
  exists (b : obj) (message : string),
    run (handler r req_body) w = (Val (Response 400 (JObj b)), [])
    /\ b !! "error" = Some (JStr message).
Proof.
  intros Hin Hf.
  destruct r; cbn in Hin;
    repeat (apply elem_of_cons in Hin as [-> | Hin]);
    try (by apply elem_of_nil in Hin);
    open_route; rewrite ?Hf;
    repeat match goal with
           | |- context [truthy (get req_body ?k)] => destruct (truthy (get req_body k))
           end;
    cbn; eexists _, _; (split; [reflexivity | by vm_compute]).
Qed.

(** C3. A request to any POST route whose body lacks a required field
    (token; and, per route, accountId, symbol, direction, volume,
    positionId) is answered with status 400 and an error text, and the
    route performs no effect at all: no MetaApi client is constructed and
    no SDK method is called. *)
Theorem missing_field_rejected `{Runtime} (w : world) (r : route) (req_body : obj)
    (field : string) :
  field ∈ required_fields r ->
  req_body !! field = None ->
  exists (b : obj) (message : string),
    run (handler r req_body) w = (Val (Response 400 (JObj b)), [])
    /\ b !! "error" = Some (JStr message).
Proof.
  intros Hin Hnone. apply (falsy_field_rejected w r req_body field Hin).
  by apply missing_falsy.
Qed.

Lemma missing_field_rejected_witness :
  exists (b : obj) (message : string),
    run (handler (rt := Sample.runtime) POST_execute_trade
           {[ "token" := JStr "t"; "accountId" := JStr "acc-1";
              "symbol" := JStr "EURUSD"; "direction" := JStr "buy" ]})
        (Sample.provider (Sample.account "DEPLOYED") [] [] Sample.closed (fun _ => 0))
    = (Val (Response 400 (JObj b)), [])
    /\ b !! "error" = Some (JStr message).
Proof.
  apply (missing_field_rejected (H := Sample.runtime) _ POST_execute_trade _ "volume").
  - cbn. set_solver.
  - by vm_compute.
Defined.

(** ** List accounts *)

(** C8. When the provider returns a page of accounts, list-accounts
    answers 200 with one projection per account, in the provider's order;
    the fields of each projection are exactly id, name, type, login,
    server, region, state, connectionStatus and magic, each read off the
    provider's account, and nothing else of that account is passed on. *)
Theorem accounts_projection `{Runtime} (w : world) (req_body : obj)
    (page : accountsPage) :
  truthy (get req_body "token") = true ->
  respond w (NewMetaApi (get req_body "token")) [] = Val tt ->
  respond w GetAccountsWithClassicPagination [NewMetaApi (get req_body "token")]
    = Val page ->
  exists projections : list obj,
    (run (accounts req_body) w).1
      = Val (Response 200 (JObj {[ "success" := JBool true;
                                   "accounts" := JArr (JObj <$> projections) ]}))
    /\ length projections = length (items page)
    /\ forall (i : nat) (acc : obj), items page !! i = Some acc ->
         exists p : obj,
           projections !! i = Some p
           /\ dom p = account_fields
           /\ forall k : string, k ∈ account_fields -> p !! k = Some (get acc k).
Proof.
  intros Htoken Hnew Hlist.
  exists ((fun acc : obj =>
    ({[ "id" := get acc "id"; "name" := get acc "name"; "type" := get acc "type";
        "login" := get acc "login"; "server" := get acc "server";
        "region" := get acc "region"; "state" := get acc "state";
        "connectionStatus" := get acc "connectionStatus";
        "magic" := get acc "magic" ]} : obj)) <$> items page).
  split; [| split].
  - open_route. rewrite Htoken. reduce.
    rewrite Hnew. reduce. rewrite Hlist. reduce.
    do 4 f_equal. rewrite <- list_fmap_compose. reflexivity.
  - by rewrite length_fmap.
  - intros i acc Hi. eexists. split.
    + rewrite list_lookup_fmap, Hi. reflexivity.
    + split.
      * unfold account_fields. rewrite !dom_insert_L, dom_singleton_L. set_solver.
      * intros k Hk. unfold account_fields in Hk.
        repeat (apply elem_of_union in Hk as [Hk | Hk]);
          apply elem_of_singleton in Hk as ->; by simplify_map_eq.
Qed.

Lemma accounts_projection_witness :
  exists projections : list obj,
    (run (accounts (rt := Sample.runtime) Sample.credentials)
       (Sample.provider (Sample.account "DEPLOYED") [] [] Sample.closed (fun _ => 0))).1
      = Val (Response 200 (JObj {[ "success" := JBool true;
                                   "accounts" := JArr (JObj <$> projections) ]}))
    /\ length projections = 1%nat
    /\ forall (i : nat) (acc : obj), [Sample.account "DEPLOYED"] !! i = Some acc ->
         exists p : obj,
           projections !! i = Some p
           /\ dom p = account_fields
           /\ forall k : string, k ∈ account_fields -> p !! k = Some (get acc k).
Proof.
  apply (accounts_projection (H := Sample.runtime)
           (Sample.provider (Sample.account "DEPLOYED") [] [] Sample.closed (fun _ => 0))
           Sample.credentials {| items := [Sample.account "DEPLOYED"] |});
    reflexivity.
Defined.

(** ** The error envelope *)

(** C7 fails where the exception carries no message text: the route then
    answers with its own fixed text, here for an [Error] whose message is
    the empty string, thrown while the client is constructed. *)
Lemma exception_without_message_gets_fallback :
  ~ reports_exception_message (H := Sample.runtime) POST_accounts
      (Sample.broken (JObj {[ "name" := JStr "Error"; "message" := JStr "" ]}))
      {[ "token" := JStr "t" ]}.
Proof.
  intros Hclaim.
  specialize (Hclaim (JObj {[ "name" := JStr "Error"; "message" := JStr "" ]})
                     [NewMetaApi (JStr "t")] eq_refl).
  vm_compute in Hclaim. discriminate Hclaim.
Qed.

(** C7, amended. Take whatever was thrown out of the [try] block of a
    route.  If it is not [null] or [undefined], the route answers with
    status 500 and the body [{success: false, error: m}] and nothing else,
    where [m] is the thrown value's message when that is truthy and the
    route's fixed text otherwise; the kind of the exception plays no part.
    If it is [null] or [undefined], the [catch] block itself throws on
    reading [error.message]: the handler throws and writes no response. *)
Theorem exception_mapped_to_500 `{Runtime} (r : route) (w : world) (req_body : obj)
    (error : jsval) (tr : trace) :
  run (try_block r req_body) w = (Exc error, tr) ->
  (nullish error = false ->
   run (handler r req_body) w
     = (Val (Response 500 (JObj
         {[ "success" := JBool false;
            "error" := if truthy (message_of error) then message_of error
                       else JStr (fallback r) ]})), tr))
  /\ (nullish error = true ->
      exists thrown : jsval,
        read_message error = Exc thrown
        /\ run (handler r req_body) w = (Exc thrown, tr)).
Proof.
  intros Hexc.
  split; intros Hnull;
    destruct r; unfold run, handler, try_block in *;
    unfold accounts, test_connection, execute_trade, get_positions,
      close_position, close_all_positions, get_history, try_catch;
    rewrite Hexc; autounfold with monad;
    destruct error; try discriminate Hnull; try reflexivity;
    eexists; split; reflexivity.
Qed.

Lemma exception_mapped_to_500_witness :
  run (handler (rt := Sample.runtime) POST_close_position
         (<[ "positionId" := JStr "A" ]> Sample.credentials))
      (Sample.broken (JObj {[ "message" := JStr "Invalid token" ]}))
    = (Val (Response 500 (JObj
        {[ "success" := JBool false; "error" := JStr "Invalid token" ]})),
       [NewMetaApi (JStr "t")]).
Proof.
  destruct (exception_mapped_to_500 (H := Sample.runtime) POST_close_position
              (Sample.broken (JObj {[ "message" := JStr "Invalid token" ]}))
              (<[ "positionId" := JStr "A" ]> Sample.credentials)
              (JObj {[ "message" := JStr "Invalid token" ]}) [NewMetaApi (JStr "t")])
    as [Hanswer _].
  - vm_compute. reflexivity.
  - rewrite Hanswer by reflexivity. vm_compute. reflexivity.
Defined.

(** A provider that rejects with [null]: the handler throws, and what it
    throws is the TypeError of its own [catch] block. *)
Lemma null_rejection_leaves_handler :
  run (handler (rt := Sample.runtime) POST_accounts {[ "token" := JStr "t" ]})
      (Sample.broken JNull)
    = (Exc (TypeError "Cannot read properties of null (reading 'message')"),
       [NewMetaApi (JStr "t")]).
Proof. vm_compute. reflexivity. Qed.

(** ** Opening a session *)

(** Use the hypothesis that a session opened: every call on the way
    returned, which fixes the world's answers and the trace. *)
Ltac session_opened H :=
  unfold run, guarded_session, unguarded_session in H;
  autounfold with monad in H; cbn in H;
  repeat
    (match type of H with
     | context [strict_eq_str ?v ?s] =>
         let Hs := fresh "Hstate" in
         destruct (strict_eq_str v s) eqn:Hs; cbn in H
     | context [respond ?w ?e ?tr] =>
         let a := fresh "a" in
         let Ha := fresh "Ha" in
         destruct (respond w e tr) as [a | a] eqn:Ha; cbn in H
     end);
  try discriminate H;
  injection H as ? ?; subst.

(** A session that opened has contacted the provider: the client was
    constructed, the account looked up, the guard run, the connection
    opened and synchronized, in this order. *)
Lemma guarded_session_trace (w : world) (token accountId : jsval) (account : obj)
    (pre : trace) :
  run (guarded_session token accountId) w = (Val account, pre) ->
  respond w (GetAccount accountId) [NewMetaApi token] = Val account
  /\ pre = [NewMetaApi token; GetAccount accountId] ++ guard_effects account
           ++ [GetRPCConnection; Connect; WaitSynchronized].
Proof.
  intros Hs. unfold guard_effects.
  session_opened Hs; rewrite Hstate; split; try reflexivity; assumption.
Qed.

Lemma unguarded_session_trace (w : world) (token accountId : jsval) (account : obj)
    (pre : trace) :
  run (unguarded_session token accountId) w = (Val account, pre) ->
  respond w (GetAccount accountId) [NewMetaApi token] = Val account
  /\ pre = [NewMetaApi token; GetAccount accountId;
            GetRPCConnection; Connect; WaitSynchronized].
Proof.
  intros Hs. session_opened Hs. split; try reflexivity; assumption.
Qed.

(** ** Running a theorem on an example *)

(** Settle a premise about a concrete request by evaluation. *)
Ltac by_evaluation :=
  first
    [ vm_compute; reflexivity
    | discriminate
    | (let d := fresh "d" in let Hd := fresh "Hd" in
       intros d Hd; vm_compute in Hd; discriminate Hd)
    | (cbn; repeat first [apply list_elem_of_here | apply list_elem_of_further]) ].

(** Feed the premises of [H], one after the other, by evaluation. *)
Ltac feed_by_evaluation H :=
  repeat match type of H with
         | ?A -> _ =>
             let Hyp := fresh "Hyp" in
             assert (Hyp : A) by by_evaluation;
             specialize (H Hyp); clear Hyp
         end.

(** ** Execute trade *)

Lemma truthy_string (d : string) : d <> "" -> truthy (JStr d) = true.
Proof. intros Hd. cbn. by destruct (String.eqb_spec d ""). Qed.

(** C2 fails on its last part: the direction is looked at only once the
    session is open, so a request with direction "hold" is answered with
    400 after the client was constructed, the account looked up and
    deployed, and the connection opened and synchronized. *)
Lemma invalid_direction_after_session :
  let w := Sample.provider (Sample.account "UNDEPLOYED") [] [] Sample.closed (fun _ => 0) in
  let req_body : obj :=
    {[ "token" := JStr "t"; "accountId" := JStr "acc-1"; "symbol" := JStr "EURUSD";
       "direction" := JStr "hold"; "volume" := JStr "1" ]} in
  run (execute_trade (rt := Sample.runtime) req_body) w
    = (Val (Response 400 (JObj {[ "success" := JBool false;
                                  "error" := JStr "Direction must be BUY or SELL" ]})),
       [NewMetaApi (JStr "t"); GetAccount (JStr "acc-1"); Deploy; WaitDeployed;
        GetRPCConnection; Connect; WaitSynchronized])
  /\ ~ invalid_direction_not_forwarded (H := Sample.runtime) w req_body.
Proof.
  split; [by vm_compute |].
  unfold invalid_direction_not_forwarded. vm_compute. discriminate.
Qed.

(** C2, amended. Take an execute-trade request whose token, accountId,
    symbol and volume are present, whose direction is a non-empty string,
    and whose volume and symbol can be converted to strings, as the log
    line of the route converts them; and let the session open (client
    constructed, account looked up, lifecycle guard, connect,
    synchronize).  If the direction in upper case is BUY the route calls
    the market-buy method, if it is SELL the market-sell method, with the
    symbol, the parsed volume and the stops, provided stopLoss and
    takeProfit can be converted to strings too; otherwise it answers 400
    'Direction must be BUY or SELL' having placed no order, its only
    provider calls being the ones that opened the session. *)
Theorem execute_trade_direction `{Runtime} (w : world) (req_body : obj) (d : string)
    (account : obj) (pre : trace) (symbol_text volume_text : string) :
  truthy (get req_body "token") = true ->
  truthy (get req_body "accountId") = true ->
  truthy (get req_body "symbol") = true ->
  truthy (get req_body "volume") = true ->
  get req_body "direction" = JStr d ->
  d <> "" ->
  ToString (get req_body "volume") = Val volume_text ->
  ToString (get req_body "symbol") = Val symbol_text ->
  run (guarded_session (get req_body "token") (get req_body "accountId")) w
    = (Val account, pre) ->
  let order (method : jsval -> number -> jsval -> jsval -> effect)
      (stopLoss_text takeProfit_text : string) : effect :=
    method (get req_body "symbol") (parseFloat_string volume_text)
      (js_or (JNum (parseFloat_string stopLoss_text)) JUndefined)
      (js_or (JNum (parseFloat_string takeProfit_text)) JUndefined) in
  pre = [NewMetaApi (get req_body "token"); GetAccount (get req_body "accountId")]
        ++ guard_effects account ++ [GetRPCConnection; Connect; WaitSynchronized]
  /\ (toUpperCase d = "BUY" ->
      forall stopLoss_text takeProfit_text : string,
        ToString (get req_body "stopLoss") = Val stopLoss_text ->
        ToString (get req_body "takeProfit") = Val takeProfit_text ->
        (run (execute_trade req_body) w).2
          = pre ++ [order CreateMarketBuyOrder stopLoss_text takeProfit_text])
  /\ (toUpperCase d <> "BUY" -> toUpperCase d = "SELL" ->
      forall stopLoss_text takeProfit_text : string,
        ToString (get req_body "stopLoss") = Val stopLoss_text ->
        ToString (get req_body "takeProfit") = Val takeProfit_text ->
        (run (execute_trade req_body) w).2
          = pre ++ [order CreateMarketSellOrder stopLoss_text takeProfit_text])
  /\ (toUpperCase d <> "BUY" -> toUpperCase d <> "SELL" ->
      run (execute_trade req_body) w
        = (Val (Response 400 (JObj {[ "success" := JBool false;
                                      "error" := JStr "Direction must be BUY or SELL" ]})),
           pre)).
Proof.
  intros Htoken Hacc Hsym Hvol Hdir Hd Hvt Hst Hs order.
  split; [by apply (guarded_session_trace w _ _ _ _ Hs) |].
  apply truthy_string in Hd.
  session_opened Hs;
    (split; [| split]); intros;
    open_route; rewrite Htoken, Hacc, Hsym, Hvol, Hdir, Hd;
    reduce; answers; rewrite ?Hstate; reduce; answers;
    repeat match goal with
           | Hu : toUpperCase d = _ |- _ => rewrite Hu; reduce
           | Hu : toUpperCase d <> _ |- _ =>
               apply String.eqb_neq in Hu; rewrite Hu; reduce
           end;
    answers;
    try reflexivity; next_call; walk_all; reflexivity.
Qed.

Lemma execute_trade_direction_witness :
  (run (execute_trade (rt := Sample.runtime)
          {[ "token" := JStr "t"; "accountId" := JStr "acc-1";
             "symbol" := JStr "EURUSD"; "direction" := JStr "Buy";
             "volume" := JStr "1" ]})
       (Sample.provider (Sample.account "DEPLOYED") [] [] Sample.closed (fun _ => 0))).2
  = [NewMetaApi (JStr "t"); GetAccount (JStr "acc-1");
     GetRPCConnection; Connect; WaitSynchronized;
     CreateMarketBuyOrder (JStr "EURUSD") (num_of_Z 1) JUndefined JUndefined].
Proof.
  pose proof (execute_trade_direction (H := Sample.runtime)
                (Sample.provider (Sample.account "DEPLOYED") [] [] Sample.closed
                   (fun _ => 0))
                {[ "token" := JStr "t"; "accountId" := JStr "acc-1";
                   "symbol" := JStr "EURUSD"; "direction" := JStr "Buy";
                   "volume" := JStr "1" ]}
                "Buy" (Sample.account "DEPLOYED") Sample.session "EURUSD" "1") as Hthm.
  feed_by_evaluation Hthm.
  destruct Hthm as (_ & Hbuy & _).
  rewrite (Hbuy eq_refl "undefined" "undefined") by (vm_compute; reflexivity).
  vm_compute. reflexivity.
Defined.




(** ** Close all positions *)


(** Whatever happens in the loop, it calls [closePosition] for the
    positions of the list in order, up to some position, and nothing
    else. *)
Lemma close_each_trace (w : world) (positions : list obj) :
  forall (tr : trace) (results : list jsval),
  exists n : nat,
    (close_each positions results w tr).2 = tr ++ closes (take n positions).
Proof.
  induction positions as [| p ps IH]; intros tr results.
  - exists 0%nat. cbn. by rewrite app_nil_r.
  - cbn [close_each]. autounfold with monad. cbn.
    destruct (respond w (ClosePosition (get p "id")) tr) as [result | error]; cbn.
    + destruct (IH (tr ++ [ClosePosition (get p "id")])
                  (results ++ [JObj {[ "positionId" := get p "id";
                                       "success" := JBool true;
                                       "orderId" := get result "orderId" ]}]))
        as [n Hn].
      exists (S n). cbn. rewrite Hn, <- app_assoc. reflexivity.
    + destruct (read_message error) as [message | thrown]; cbn.
      * destruct (IH (tr ++ [ClosePosition (get p "id")])
                    (results ++ [JObj {[ "positionId" := get p "id";
                                         "success" := JBool false;
                                         "error" := message ]}]))
          as [n Hn].
        exists (S n). cbn. rewrite Hn, <- app_assoc. reflexivity.
      * exists 1%nat. cbn. rewrite take_0. reflexivity.
Qed.

(** When no rejection is [null] or [undefined] the loop does not throw:
    it appends one entry per position, having called [closePosition] once
    for each, in order, whatever the earlier calls did. *)
Lemma close_each_spec (w : world) (positions : list obj) :
  forall (tr : trace) (results : list jsval),
  (forall (i : nat) (position : obj) (error : jsval),
     positions !! i = Some position ->
     respond w (ClosePosition (get position "id")) (tr ++ closes (take i positions))
       = Exc error ->
     nullish error = false) ->
  exists new : list jsval,
    close_each positions results w tr = (Val (results ++ new), tr ++ closes positions)
    /\ length new = length positions
    /\ forall (i : nat) (position : obj), positions !! i = Some position ->
         new !! i = Some (close_result position
           (respond w (ClosePosition (get position "id")) (tr ++ closes (take i positions)))).
Proof.
  induction positions as [| p ps IH]; intros tr results Hok.
  - exists []. cbn. rewrite !app_nil_r. by repeat split.
  - cbn [close_each]. autounfold with monad. cbn.
    pose (o := respond w (ClosePosition (get p "id")) tr : result obj).
    destruct (IH (tr ++ [ClosePosition (get p "id")]) (results ++ [close_result p o]))
      as (new & Hrun & Hlen & Hnth).
    { intros i position error Hi Herr.
      apply (Hok (S i) position error Hi).
      cbn. rewrite <- app_assoc in Herr. exact Herr. }
    exists (close_result p o :: new).
    split; [| split].
    + subst o.
      destruct (respond w (ClosePosition (get p "id")) tr) as [result | error] eqn:Ho;
        cbn in *.
      * rewrite Hrun, <- !app_assoc; reflexivity.
      * rewrite (read_message_nullish error).
        -- cbn. rewrite Hrun, <- !app_assoc; reflexivity.
        -- apply (Hok 0%nat p error eq_refl). cbn. by rewrite app_nil_r.
    + cbn. by rewrite Hlen.
    + intros [| i] position Hi.
      * injection Hi as <-. cbn. by rewrite app_nil_r.
      * specialize (Hnth i position Hi). rewrite <- app_assoc in Hnth. exact Hnth.
Qed.




(** ** What the conversions throw *)

(** A conversion to a string throws nothing but the engine's TypeError. *)
Lemma ToString_throws `{Runtime} (v error : jsval) :
  ToString v = Exc error ->
  error = TypeError "Cannot convert object to primitive value".
Proof.
  revert v error. fix IH 1. intros v error.
  destruct v as [| | b | n | s | l | o]; try discriminate.
  - cbn.
    match goal with
    | |- match ?r with Val _ => _ | Exc _ => _ end = _ -> _ =>
        enough (Hl : forall e, r = Exc e ->
                       e = TypeError "Cannot convert object to primitive value");
        [destruct r as [ss | e]; [discriminate |];
         intros He; injection He as <-; by apply Hl |]
    end.
    induction l as [| x l IHl]; intros e; [discriminate |].
    assert (Hx : forall e, ToString x = Exc e ->
                   e = TypeError "Cannot convert object to primitive value")
      by (intros e'; apply (IH x)).
    destruct (match x with JUndefined | JNull => Val "" | _ => ToString x end)
      as [s | e'] eqn:Hhead.
    + match goal with
      | |- match ?r with Val _ => _ | Exc _ => _ end = _ -> _ =>
          destruct r as [rest | e'] eqn:Hrest
      end; [discriminate |].
      intros He. injection He as <-. by apply IHl.
    + intros He. injection He as <-.
      destruct x; try discriminate Hhead; by apply Hx.
  - cbn. destruct (o !! "toString"); [| discriminate].
    intros Hthrown. by injection Hthrown as <-.
Qed.

Lemma parseFloat_throws `{Runtime} (v error : jsval) :
  parseFloat v = Exc error -> nullish error = false.
Proof.
  unfold parseFloat. destruct (ToString v) eqn:Hs; [discriminate |].
  intros He. injection He as <-. by rewrite (ToString_throws _ _ Hs).
Qed.

Lemma ToNumber_throws `{Runtime} (v error : jsval) :
  ToNumber v = Exc error -> nullish error = false.
Proof.
  destruct v; try discriminate; cbn -[ToString];
    (destruct (ToString _) eqn:Hs; [discriminate |]);
    intros He; injection He as <-; by rewrite (ToString_throws _ _ Hs).
Qed.

Lemma slice0_throws `{Runtime} {A : Type} (l : list A) (e error : jsval) :
  slice0 l e = Exc error -> nullish error = false.
Proof.
  unfold slice0.
  destruct e; try discriminate;
    (destruct (ToNumber _) eqn:Hn; [discriminate |]);
    intros He; injection He as <-; by apply (ToNumber_throws _ _ Hn).
Qed.

Lemma new_Date_of_throws `{Runtime} (v error : jsval) :
  new_Date_of v = Exc error -> nullish error = false.
Proof.
  unfold new_Date_of.
  destruct v; try discriminate; cbn -[ToString];
    (destruct (ToString _) eqn:Hs; [discriminate |]);
    intros He; injection He as <-; by rewrite (ToString_throws _ _ Hs).
Qed.

(** A string, a number, a boolean, [null] and [undefined] can always be
    converted to a string. *)
Lemma ToString_primitive `{Runtime} (v : jsval) :
  (forall l, v <> JArr l) -> (forall o, v <> JObj o) ->
  exists s : string, ToString v = Val s.
Proof.
  intros Harr Hobj. destruct v; cbn; eauto.
  - by destruct (Harr l).
  - by destruct (Hobj o).
Qed.

(** ** Get history *)

(** [slice(0, e)] keeps a prefix: elements are neither reordered nor
    replaced. *)
Lemma slice_to_prefix {A : Type} (l : list A) (relativeEnd : integer_or_infinity) :
  slice_to l relativeEnd `prefix_of` l.
Proof.
  destruct relativeEnd; [apply prefix_nil | apply prefix_take | reflexivity].
Qed.

Lemma slice0_prefix `{Runtime} {A : Type} (l returned : list A) (e : jsval) :
  slice0 l e = Val returned -> returned `prefix_of` l.
Proof.
  unfold slice0.
  destruct e; try (intros He; by injection He as <-);
    (destruct (ToNumber _); [| discriminate]);
    intros He; injection He as <-; apply slice_to_prefix.
Qed.

(** With a non-negative integer, [slice] gives the first elements. *)
Lemma slice_to_first {A : Type} (l : list A) (z : Z) :
  0 <= z -> slice_to l (Integer z) = take (Z.to_nat z) l.
Proof.
  intros Hpos. unfold slice_to.
  destruct (Z.ltb_spec z 0); [lia |].
  destruct (Z.le_ge_cases z (Z.of_nat (length l))).
  - by rewrite Z.min_l.
  - rewrite Z.min_r, Nat2Z.id by done.
    rewrite take_ge by done. rewrite take_ge by lia. done.
Qed.

(** When the deal query is the last thing get-history did and the
    provider answered it, the answer is decided by [slice(0, limit)] on
    the projections of the deals: 200 with what it returns, 500 when it
    throws. *)
Lemma get_history_response `{Runtime} (w : world) (req_body : obj) (h : trace)
    (startTime endTime : date) (deals : list obj) :
  (run (get_history req_body) w).2 = h ++ [GetHistoryDealsByTimeRange startTime endTime] ->
  respond w (GetHistoryDealsByTimeRange startTime endTime) h = Val deals ->
  match slice0 (deal_projection <$> deals)
          (get_default req_body "limit" (JNum (num_of_Z 20))) with
  | Val returned =>
      (run (get_history req_body) w).1
      = Val (Response 200 (JObj {[ "success" := JBool true; "deals" := JArr returned ]}))
  | Exc error =>
      exists res : response,
        (run (get_history req_body) w).1 = Val res /\ status res = 500%nat
  end.
Proof.
  intros Htr Hdeals.
  destruct (slice0 (deal_projection <$> deals)
              (get_default req_body "limit" (JNum (num_of_Z 20)))) as [returned | error]
    eqn:Hslice;
    destruct (run (get_history req_body) w) as [res tr] eqn:Hr;
    cbn in Htr |- *; revert Hr;
    open_route; walk_all;
    intros Hr; injection Hr as <- <-;
    apply trace_ends_with in Htr as [Hlast ->]; cbn in Hlast, Hdeals;
    try discriminate Hlast;
    injection Hlast as <- <-;
    match goal with
    | Ha : respond _ (GetHistoryDealsByTimeRange _ _) _ = Exc _ |- _ =>
        pose proof (eq_trans (eq_sym Ha) Hdeals) as Heq; discriminate Heq
    | Ha : respond _ (GetHistoryDealsByTimeRange _ _) _ = Val ?d |- _ =>
        tryif constr_eq d deals then fail
        else (pose proof (eq_trans (eq_sym Ha) Hdeals) as Heq; injection Heq as ->)
    end;
    match goal with
    | Hs : slice0 (map _ _) _ = _ |- _ =>
        pose proof (eq_trans (eq_sym Hs) Hslice) as Heq;
        first [discriminate Heq | injection Heq as ->]
    end;
    try reflexivity;
    try (eexists; split; reflexivity);
    match goal with
    | Hm : read_message _ = Exc _ |- _ =>
        apply read_message_throws in Hm;
        apply slice0_throws in Hslice; congruence
    end.
Qed.

(** C5. When get-history has queried the provider and received a list of
    deals: with no limit field the route answers 200 with the first 20 of
    the projected deals (so 20 of a result of 50), with limit 5 the first
    5; and whenever it answers 200 the deals it returns are a prefix of
    the projected deals, in the provider's order. *)
Theorem get_history_truncates `{Runtime} (w : world) (req_body : obj) (h : trace)
    (startTime endTime : date) (deals : list obj) :
  (run (get_history req_body) w).2 = h ++ [GetHistoryDealsByTimeRange startTime endTime] ->
  respond w (GetHistoryDealsByTimeRange startTime endTime) h = Val deals ->
  (req_body !! "limit" = None ->
   (run (get_history req_body) w).1
     = Val (Response 200 (JObj
         {[ "success" := JBool true;
            "deals" := JArr (take 20 (deal_projection <$> deals)) ]}))
   /\ (length deals = 50%nat ->
       length (take 20 (deal_projection <$> deals)) = 20%nat))
  /\ (req_body !! "limit" = Some (JNum (num_of_Z 5)) ->
      (run (get_history req_body) w).1
        = Val (Response 200 (JObj
            {[ "success" := JBool true;
               "deals" := JArr (take 5 (deal_projection <$> deals)) ]})))
  /\ (forall b : obj,
        (run (get_history req_body) w).1 = Val (Response 200 (JObj b)) ->
        exists returned : list jsval,
          b !! "deals" = Some (JArr returned)
          /\ returned `prefix_of` (deal_projection <$> deals)).
Proof.
  intros Htr Hdeals.
  pose proof (get_history_response w req_body h startTime endTime deals Htr Hdeals)
    as Hres.
  split; [| split].
  - intros Hlimit. unfold get_default in Hres. rewrite (get_missing _ _ Hlimit) in Hres.
    change (slice0 (deal_projection <$> deals) (JNum (num_of_Z 20)))
      with (Val (A := list jsval)
              (slice_to (deal_projection <$> deals) (Integer 20))) in Hres.
    rewrite slice_to_first in Hres by lia.
    split; [exact Hres |].
    intros Hlen. rewrite length_take, length_fmap, Hlen. done.
  - intros Hlimit. unfold get_default in Hres. rewrite (get_present _ _ _ Hlimit) in Hres.
    change (slice0 (deal_projection <$> deals) (JNum (num_of_Z 5)))
      with (Val (A := list jsval)
              (slice_to (deal_projection <$> deals) (Integer 5))) in Hres.
    by rewrite slice_to_first in Hres by lia.
  - intros b Hb.
    destruct (slice0 (deal_projection <$> deals)
                (get_default req_body "limit" (JNum (num_of_Z 20))))
      as [returned | error] eqn:Hslice.
    + exists returned. rewrite Hres in Hb. injection Hb as <-.
      split; [by simplify_map_eq | by apply slice0_prefix in Hslice].
    + destruct Hres as (res & Hres & Hstatus). rewrite Hres in Hb.
      injection Hb as ->. discriminate Hstatus.
Qed.

(** C10. The default of 20 is used only when the request has no limit
    field.  A limit that is present is used as it is in
    [slice(0, limit)], through the number it converts to; when it is 0 or
    null, the route answers 200 with an empty list of deals, whatever the
    provider returned. *)
Theorem get_history_falsy_limit `{Runtime} (w : world) (req_body : obj) (h : trace)
    (startTime endTime : date) (deals : list obj) :
  (run (get_history req_body) w).2 = h ++ [GetHistoryDealsByTimeRange startTime endTime] ->
  respond w (GetHistoryDealsByTimeRange startTime endTime) h = Val deals ->
  (req_body !! "limit" = None ->
   (run (get_history req_body) w).1
     = Val (Response 200 (JObj
         {[ "success" := JBool true;
            "deals" := JArr (take 20 (deal_projection <$> deals)) ]})))
  /\ (forall (limit : jsval) (n : number),
        req_body !! "limit" = Some limit -> limit <> JUndefined ->
        ToNumber limit = Val n ->
        (run (get_history req_body) w).1
          = Val (Response 200 (JObj
              {[ "success" := JBool true;
                 "deals" := JArr (slice_to (deal_projection <$> deals)
                                    (ToIntegerOrInfinity n)) ]})))
  /\ (forall limit : jsval, req_body !! "limit" = Some limit ->
        limit = JNum (num_of_Z 0) \/ limit = JNull ->
        (run (get_history req_body) w).1
          = Val (Response 200 (JObj
              {[ "success" := JBool true; "deals" := JArr [] ]}))).
Proof.
  intros Htr Hdeals.
  pose proof (get_history_response w req_body h startTime endTime deals Htr Hdeals)
    as Hres.
  unfold get_default in Hres.
  split; [| split].
  - intros Hlimit. rewrite (get_missing _ _ Hlimit) in Hres.
    change (slice0 (deal_projection <$> deals) (JNum (num_of_Z 20)))
      with (Val (A := list jsval)
              (slice_to (deal_projection <$> deals) (Integer 20))) in Hres.
    by rewrite slice_to_first in Hres by lia.
  - intros limit n Hlimit Hdef Hn. rewrite (get_present _ _ _ Hlimit) in Hres.
    destruct limit; try congruence; unfold slice0 in Hres;
      rewrite Hn in Hres; exact Hres.
  - intros limit Hlimit [-> | ->]; rewrite (get_present _ _ _ Hlimit) in Hres;
      match type of Hres with
      | context [slice0 ?l ?e] =>
          change (slice0 l e) with (Val (A := list jsval) (slice_to l (Integer 0)))
            in Hres
      end;
      rewrite slice_to_first in Hres by lia; exact Hres.
Qed.

Lemma history_provider_queried (now : Z) (req_body : obj) (limit : number) :
  get_default req_body "limit" (JNum (num_of_Z 20)) = JNum limit ->
  truthy (get req_body "token") = true ->
  get req_body "token" = JStr "t" ->
  get req_body "accountId" = JStr "acc-1" ->
  get req_body "startTime" = JUndefined ->
  (run (get_history (rt := Sample.runtime) req_body) (Sample.history_provider now)).2
  = Sample.history_session
    ++ [GetHistoryDealsByTimeRange (TimeClip (now - 30 * 24 * 60 * 60 * 1000))
          (DateMs now)].
Proof.
  intros Hlimit Htruthy Htoken Hacc Hstart. open_route.
  rewrite Htruthy, !Hacc, !Htoken, !Hstart, Hlimit. reflexivity.
Qed.

Lemma get_history_truncates_witness :
  (run (get_history (rt := Sample.runtime) Sample.credentials)
     (Sample.history_provider 1700000000000)).1
  = Val (Response 200 (JObj
      {[ "success" := JBool true;
         "deals" := JArr (take 20 (deal_projection <$> Sample.deals 50)) ]}))
  /\ length (take 20 (deal_projection <$> Sample.deals 50)) = 20%nat.
Proof.
  destruct (get_history_truncates (H := Sample.runtime)
              (Sample.history_provider 1700000000000) Sample.credentials
              Sample.history_session
              (TimeClip (1700000000000 - 30 * 24 * 60 * 60 * 1000))
              (DateMs 1700000000000) (Sample.deals 50))
    as (Hdefault & _ & _).
  - apply (history_provider_queried _ _ (num_of_Z 20)); reflexivity.
  - reflexivity.
  - destruct (Hdefault eq_refl) as [Hrun Hlen].
    split; [exact Hrun | apply Hlen; reflexivity].
Defined.

Lemma get_history_falsy_limit_witness :
  (run (get_history (rt := Sample.runtime)
          (<[ "limit" := JNum (num_of_Z 0) ]> Sample.credentials))
     (Sample.history_provider 1700000000000)).1
    = Val (Response 200 (JObj {[ "success" := JBool true; "deals" := JArr [] ]})).
Proof.
  destruct (get_history_falsy_limit (H := Sample.runtime)
              (Sample.history_provider 1700000000000)
              (<[ "limit" := JNum (num_of_Z 0) ]> Sample.credentials)
              Sample.history_session
              (TimeClip (1700000000000 - 30 * 24 * 60 * 60 * 1000))
              (DateMs 1700000000000) (Sample.deals 50))
    as (_ & _ & Hzero).
  - apply (history_provider_queried _ _ (num_of_Z 0)); reflexivity.
  - reflexivity.
  - apply (Hzero (JNum (num_of_Z 0))); [reflexivity | by left].
Defined.

(** ** The default time range of get-history *)

Lemma TimeClip_in_range (t : Z) :
  - 8640000000000000 <= t <= 8640000000000000 -> TimeClip t = DateMs t.
Proof.
  intros Ht. unfold TimeClip.
  destruct (Z.leb_spec (Z.abs t) 8640000000000000); [done | lia].
Qed.

(** C6 fails on a clock that moves between the two reads: with a
    millisecond between [Date.now()] and [new Date()] the range queried is
    30 days and one millisecond long. *)
Lemma moving_clock_widens_range :
  let w := Sample.ticking_provider 1700000000000 in
  (run (get_history (rt := Sample.runtime) Sample.credentials) w).2
    = Sample.session
      ++ [DateNow; NewDate;
          GetHistoryDealsByTimeRange (DateMs (1700000000005 - 2592000000))
            (DateMs 1700000000006)]
  /\ ~ range_is_30_days (H := Sample.runtime) w Sample.credentials.
Proof.
  split; [vm_compute; reflexivity |].
  intros (pre & start & finish & Htr & Hrange).
  apply trace_ends_with in Htr as [Hlast _].
  vm_compute in Hlast. injection Hlast as <- <-. lia.
Qed.

(** C6, amended. When a get-history request has no startTime and its
    accountId can be converted to a string, once the session is open the
    route reads the clock with [Date.now()], reads it again with
    [new Date()], and queries the deals from the first reading minus
    30*24*60*60*1000 ms to the second reading: the range is 30 days
    plus what the clock moved between the two readings, exactly 30 days
    when it has not moved.  The clock is taken to show a time after 1970
    within the range of Date. *)
Theorem get_history_default_range `{Runtime} (w : world) (req_body : obj)
    (account : obj) (pre : trace) (accountId_text : string) :
  truthy (get req_body "token") = true ->
  truthy (get req_body "accountId") = true ->
  ToString (get req_body "accountId") = Val accountId_text ->
  req_body !! "startTime" = None ->
  run (guarded_session (get req_body "token") (get req_body "accountId")) w
    = (Val account, pre) ->
  let now := respond w DateNow pre in
  let now' := respond w NewDate (pre ++ [DateNow]) in
  0 <= now <= 8640000000000000 ->
  exists start finish : Z,
    (run (get_history req_body) w).2
      = pre ++ [DateNow; NewDate;
                GetHistoryDealsByTimeRange (DateMs start) (DateMs finish)]
    /\ start = now - 30 * 24 * 60 * 60 * 1000
    /\ finish = now'
    /\ finish - start = 30 * 24 * 60 * 60 * 1000 + (now' - now)
    /\ (now' = now -> finish - start = 30 * 24 * 60 * 60 * 1000).
Proof.
  intros Htoken Hacc Htext Hstart Hs now now' Hnow.
  exists (now - 30 * 24 * 60 * 60 * 1000), now'.
  split; [| repeat split; intros; lia].
  apply missing_falsy in Hstart.
  assert (Hclip : TimeClip (now - 30 * 24 * 60 * 60 * 1000)
                  = DateMs (now - 30 * 24 * 60 * 60 * 1000))
    by (apply TimeClip_in_range; lia).
  subst now now'.
  session_opened Hs;
    open_route; rewrite Htoken, Hacc, Hstart;
    reduce; answers; rewrite ?Hstate; reduce; answers;
    rewrite Hclip; next_call; walk_all; reflexivity.
Qed.

Lemma get_history_default_range_witness :
  (run (get_history (rt := Sample.runtime) Sample.credentials)
     (Sample.history_provider 1700000000000)).2
    = [NewMetaApi (JStr "t"); GetAccount (JStr "acc-1");
       GetRPCConnection; Connect; WaitSynchronized; DateNow; NewDate;
       GetHistoryDealsByTimeRange (DateMs 1697408000000) (DateMs 1700000000000)].
Proof.
  pose proof (get_history_default_range (H := Sample.runtime)
                (Sample.history_provider 1700000000000) Sample.credentials
                (Sample.account "DEPLOYED") Sample.session "acc-1") as Hthm.
  feed_by_evaluation Hthm. cbv zeta in Hthm.
  assert (Hclock : 0 <= respond (Sample.history_provider 1700000000000) DateNow
                          Sample.session <= 8640000000000000)
    by (vm_compute; split; discriminate).
  destruct (Hthm Hclock) as (start & finish & Hrun & Hstart & Hfinish & _).
  rewrite Hrun, Hstart, Hfinish. vm_compute. reflexivity.
Defined.

(** ** The lifecycle guard *)

(** X4. In test-connection, execute-trade, get-positions and get-history the
    connection is opened only after the guard: the account was looked up
    and, unless it said DEPLOYED, [deploy] and [waitDeployed] were called
    and returned. *)
Theorem guard_runs_before_connect `{Runtime} (r : route) (w : world) (req_body : obj) :
  guarded r = true ->
  Connect ∈ (run (handler r req_body) w).2 ->
  exists (account : obj) (rest : trace),
    respond w (GetAccount (get req_body "accountId")) [NewMetaApi (get req_body "token")]
      = Val account
    /\ (run (handler r req_body) w).2
       = [NewMetaApi (get req_body "token"); GetAccount (get req_body "accountId")]
         ++ guard_effects account ++ [GetRPCConnection; Connect] ++ rest.
Proof.
  intros Hr; destruct r; try discriminate Hr; clear Hr;
    open_route; autounfold with monad; unfold guard_effects; walk_all;
    intros Hc;
    first
      [ not_in_trace Hc
      | eexists _, _; split; [reflexivity |];
        match goal with Hs : strict_eq_str _ _ = _ |- _ => rewrite Hs end;
        reflexivity ].
Qed.

Lemma guard_runs_before_connect_witness :
  exists (account : obj) (rest : trace),
    respond (Sample.provider (Sample.account "UNDEPLOYED") [] [] Sample.closed (fun _ => 0))
      (GetAccount (get Sample.credentials "accountId"))
      [NewMetaApi (get Sample.credentials "token")]
      = Val account
    /\ (run (handler (rt := Sample.runtime) POST_get_positions Sample.credentials)
          (Sample.provider (Sample.account "UNDEPLOYED") [] [] Sample.closed (fun _ => 0))).2
       = [NewMetaApi (get Sample.credentials "token");
          GetAccount (get Sample.credentials "accountId")]
         ++ guard_effects account ++ [GetRPCConnection; Connect] ++ rest.
Proof.
  apply (guard_runs_before_connect (H := Sample.runtime) POST_get_positions
           (Sample.provider (Sample.account "UNDEPLOYED") [] [] Sample.closed (fun _ => 0))
           Sample.credentials).
  - reflexivity.
  - vm_compute. do 5 apply list_elem_of_further. apply list_elem_of_here.
Defined.

(** No call of [closePosition] is a [deploy]. *)
Lemma closes_never_deploy (positions : list obj) : Deploy ∉ closes positions.
Proof.
  unfold closes. intros Hc. apply list_elem_of_fmap in Hc as (p & Hp & _).
  discriminate Hp.
Qed.

(** X6. close-position never deploys, whatever the account says. *)
Theorem close_position_never_deploys `{Runtime} (w : world) (req_body : obj) :
  Deploy ∉ (run (close_position req_body) w).2.
Proof.
  open_route. autounfold with monad. walk_all; intros Hc; not_in_trace Hc.
Qed.

(** X7. Nor does close-all-positions. *)
Theorem close_all_positions_never_deploys `{Runtime} (w : world) (req_body : obj) :
  Deploy ∉ (run (close_all_positions req_body) w).2.
Proof.
  open_route. autounfold with monad. walk_all; try (intros Hc; not_in_trace Hc).
  all: match goal with
       | |- context [close_each ?ps ?rs ?w ?tr] =>
           let n := fresh "n" in
           let Hn := fresh "Hn" in
           destruct (close_each_trace w ps tr rs) as [n Hn];
           destruct (close_each ps rs w tr) as [[results | error] tr'];
           cbn in Hn; subst tr'
       end; walk_all; intros Hc.
  all: repeat (apply elem_of_cons in Hc as [Hc | Hc]; [discriminate Hc |]).
  all: by apply closes_never_deploy in Hc.
Qed.

(** C1. The claim holds for test-connection, execute-trade, get-positions
    and get-history, and fails for close-position and close-all-positions:
    on an account whose state is UNDEPLOYED these two open and synchronize
    the connection without deploying it, where get-positions deploys it
    and waits first. *)
Theorem close_routes_skip_lifecycle_guard :
  let w := Sample.provider (Sample.account "UNDEPLOYED") [Sample.position "A"] []
             Sample.closed (fun _ => 0) in
  (run (close_position (rt := Sample.runtime)
          (<[ "positionId" := JStr "A" ]> Sample.credentials)) w).2
    = [NewMetaApi (JStr "t"); GetAccount (JStr "acc-1");
       GetRPCConnection; Connect; WaitSynchronized; ClosePosition (JStr "A")]
  /\ (run (close_all_positions (rt := Sample.runtime) Sample.credentials) w).2
     = [NewMetaApi (JStr "t"); GetAccount (JStr "acc-1");
        GetRPCConnection; Connect; WaitSynchronized; GetPositions;
        ClosePosition (JStr "A")]
  /\ (run (get_positions (rt := Sample.runtime) Sample.credentials) w).2
     = [NewMetaApi (JStr "t"); GetAccount (JStr "acc-1"); Deploy; WaitDeployed;
        GetRPCConnection; Connect; WaitSynchronized; GetPositions].
Proof. repeat split; by vm_compute. Qed.

(** X5. The guard does nothing on an account that says DEPLOYED: in
    test-connection, execute-trade, get-positions and get-history neither
    [deploy] nor [waitDeployed] is called then. *)
Theorem guard_noop_when_deployed `{Runtime} (r : route) (w : world) (req_body : obj)
    (account : obj) :
  guarded r = true ->
  respond w (GetAccount (get req_body "accountId")) [NewMetaApi (get req_body "token")]
    = Val account ->
  get account "state" = JStr "DEPLOYED" ->
  (Deploy ∉ (run (handler r req_body) w).2)
  /\ (WaitDeployed ∉ (run (handler r req_body) w).2).
Proof.
  intros Hr; destruct r; try discriminate Hr; clear Hr;
    open_route; autounfold with monad; walk_all;
    intros Hacc Hst;
    try (first [discriminate Hacc | injection Hacc as ->]);
    try match goal with
        | Hs : strict_eq_str (get account "state") _ = false |- _ =>
            rewrite Hst in Hs; discriminate Hs
        end;
    split; intros Hc; not_in_trace Hc.
Qed.

Lemma guard_noop_when_deployed_witness :
  (Deploy ∉ (run (handler (rt := Sample.runtime) POST_get_history Sample.credentials)
               (Sample.history_provider 1700000000000)).2)
  /\ (WaitDeployed ∉ (run (handler (rt := Sample.runtime) POST_get_history
                             Sample.credentials)
                        (Sample.history_provider 1700000000000)).2).
Proof.
  apply (guard_noop_when_deployed (H := Sample.runtime) POST_get_history
           (Sample.history_provider 1700000000000) Sample.credentials
           (Sample.account "DEPLOYED")); reflexivity.
Defined.

(** * Further properties of the routes *)

(** ** Validation *)

(** X1. A required field that is present but falsy (null, false, the empty
    string, 0 or -0) is rejected exactly like a missing one: status 400,
    an error text, and nothing done. *)
Theorem falsy_json_field_rejected `{Runtime} (w : world) (r : route) (req_body : obj)
    (field : string) (v : jsval) :
  field ∈ required_fields r ->
  req_body !! field = Some v ->
  falsy_json v ->
  exists (b : obj) (message : string),
    run (handler r req_body) w = (Val (Response 400 (JObj b)), [])
    /\ b !! "error" = Some (JStr message).
Proof.
  intros Hin Hv Hfalsy. apply (falsy_field_rejected w r req_body field Hin).
  rewrite (get_present _ _ _ Hv).
  by destruct Hfalsy as [-> | [-> | [-> | [-> | ->]]]].
Qed.

Lemma falsy_json_field_rejected_witness :
  exists (b : obj) (message : string),
    run (handler (rt := Sample.runtime) POST_execute_trade
           {[ "token" := JStr "t"; "accountId" := JStr "acc-1";
              "symbol" := JStr "EURUSD"; "direction" := JStr "buy";
              "volume" := JNum (num_of_Z 0) ]})
        (Sample.provider (Sample.account "DEPLOYED") [] [] Sample.closed (fun _ => 0))
    = (Val (Response 400 (JObj b)), [])
    /\ b !! "error" = Some (JStr message).
Proof.
  apply (falsy_json_field_rejected (H := Sample.runtime) _ POST_execute_trade _
           "volume" (JNum (num_of_Z 0))).
  - cbn. set_solver.
  - vm_compute; reflexivity.
  - right. right. right. left. reflexivity.
Defined.

(** Split the run of the loop of close-all-positions into what it
    returned or threw and the trace it left. *)
Ltac loop_ran :=
  match goal with
  | |- context [close_each ?ps ?rs ?w ?tr] =>
      let n := fresh "n" in
      let Hn := fresh "Hn" in
      destruct (close_each_trace w ps tr rs) as [n Hn];
      destruct (close_each ps rs w tr) as [[? | ?] ?];
      cbn in Hn; subst
  end.

(** X2. A 400 from any route but execute-trade means that nothing was done;
    a 400 from execute-trade means that no order was placed. *)
Theorem status_400_nothing_traded `{Runtime} (r : route) (w : world) (req_body : obj)
    (res : response) (tr : trace) :
  run (handler r req_body) w = (Val res, tr) ->
  status res = 400%nat ->
  (r <> POST_execute_trade -> tr = [])
  /\ Forall (fun e => is_trade e = false) tr.
Proof.
  destruct r; open_route; autounfold with monad; walk_all.
  all: try (loop_ran; walk_all).
  all: intros Hrun Hst; try discriminate Hrun;
    injection Hrun as <- <-; try discriminate Hst.
  all: split; [try done; intros Hne; by destruct Hne | repeat constructor].
Qed.

Lemma status_400_nothing_traded_witness :
  Forall (fun e => is_trade e = false)
    [NewMetaApi (JStr "t"); GetAccount (JStr "acc-1");
     GetRPCConnection; Connect; WaitSynchronized].
Proof.
  apply (status_400_nothing_traded (H := Sample.runtime) POST_execute_trade
           (Sample.provider (Sample.account "DEPLOYED") [] [] Sample.closed (fun _ => 0))
           {[ "token" := JStr "t"; "accountId" := JStr "acc-1";
              "symbol" := JStr "EURUSD"; "direction" := JStr "hold";
              "volume" := JStr "1" ]}
           (Response 400 (JObj {[ "success" := JBool false;
                                  "error" := JStr "Direction must be BUY or SELL" ]}))).
  - vm_compute; reflexivity.
  - reflexivity.
Defined.

(** What a route's [try] block can throw is what the provider rejected
    with, or a TypeError of the engine: never [null] or [undefined] when
    the provider never rejects with them, so the [catch] block can read
    its message. *)
Ltac catch_reads Hw :=
  match goal with
  | Hr : read_message ?a = Exc _ |- _ =>
      apply read_message_throws in Hr;
      first
        [ discriminate Hr
        | match goal with
          | Ha : respond _ ?e ?h = Exc a |- _ =>
              rewrite (Hw e h a) in Hr;
              [discriminate Hr | cbn; rewrite Ha; reflexivity]
          | Ha : ToString _ = Exc a |- _ =>
              apply ToString_throws in Ha; subst; discriminate Hr
          | Ha : new_Date_of _ = Exc a |- _ =>
              apply new_Date_of_throws in Ha; congruence
          | Ha : slice0 _ _ = Exc a |- _ =>
              apply slice0_throws in Ha; congruence
          end ]
  end.

(** The loop of close-all-positions on a provider that never rejects
    with [null] or [undefined]: it returns. *)
Lemma close_each_returns (w : world) (positions : list obj) (tr : trace)
    (results : list jsval) :
  rejects_with_values w ->
  exists new : list jsval,
    close_each positions results w tr = (Val (results ++ new), tr ++ closes positions).
Proof.
  intros Hw.
  destruct (close_each_spec w positions tr results) as (new & Hrun & _).
  - intros i position error _ Hrej.
    apply (Hw (ClosePosition (get position "id")) (tr ++ closes (take i positions))).
    cbn. by rewrite Hrej.
  - by exists new.
Qed.

(** X3. On a provider that never rejects with [null] or [undefined] (one
    that throws Error objects, say), a route answers whatever else the
    provider and the request do, and with status 200, 400 or 500: no
    exception leaves the handler. *)
Theorem route_always_answers `{Runtime} (r : route) (w : world) (req_body : obj) :
  rejects_with_values w ->
  exists (res : response) (tr : trace),
    run (handler r req_body) w = (Val res, tr)
    /\ (status res = 200%nat \/ status res = 400%nat \/ status res = 500%nat).
Proof.
  intros Hw.
  destruct r; open_route; autounfold with monad; walk_all.
  all: try match goal with
       | |- context [close_each ?ps ?rs ?w ?tr] =>
           destruct (close_each_returns w ps tr rs Hw) as [new ->]; walk_all
       end.
  all: first [ eexists _, _; (split; [reflexivity |]); cbn; by auto
             | exfalso; catch_reads Hw ].
Qed.

Lemma route_always_answers_witness :
  exists (res : response) (tr : trace),
    run (handler (rt := Sample.runtime) POST_get_positions Sample.credentials)
      (Sample.broken (JStr "down")) = (Val res, tr)
    /\ (status res = 200%nat \/ status res = 400%nat \/ status res = 500%nat).
Proof.
  apply (route_always_answers (H := Sample.runtime) POST_get_positions
           (Sample.broken (JStr "down")) Sample.credentials).
  intros e h v Hrej.
  destruct e; cbn in Hrej; first [discriminate Hrej | by injection Hrej as <-].
Defined.

(** ** What the operations answer *)

(** X8. test-connection, once the session is open, for an accountId that
    can be converted to a string: the account information is asked for
    once, after the session; when the provider gives it the route answers
    200 with the message and the balance, equity and currency of that
    information, and nothing else of it; when the provider rejects with
    anything but [null] or [undefined], 500. *)
Theorem test_connection_reports_account `{Runtime} (w : world) (req_body : obj)
    (account : obj) (pre : trace) (accountId_text : string) :
  truthy (get req_body "token") = true ->
  truthy (get req_body "accountId") = true ->
  ToString (get req_body "accountId") = Val accountId_text ->
  run (guarded_session (get req_body "token") (get req_body "accountId")) w
    = (Val account, pre) ->
  (run (test_connection req_body) w).2 = pre ++ [GetAccountInformation]
  /\ (forall info : obj, respond w GetAccountInformation pre = Val info ->
      exists b : obj,
        (run (test_connection req_body) w).1 = Val (Response 200 (JObj b))
        /\ dom b = {[ "success"; "message"; "balance"; "equity"; "currency" ]}
        /\ b !! "success" = Some (JBool true)
        /\ b !! "message" = Some (JStr "Connection successful")
        /\ forall k : string, k ∈ ({[ "balance"; "equity"; "currency" ]} : gset string) ->
             b !! k = Some (get info k))
  /\ (forall error : jsval, respond w GetAccountInformation pre = Exc error ->
      nullish error = false ->
      exists res : response,
        (run (test_connection req_body) w).1 = Val res /\ status res = 500%nat).
Proof.
  intros Htoken Hacc Htext Hs.
  session_opened Hs;
    open_route; rewrite Htoken, Hacc;
    reduce; answers; rewrite ?Hstate; reduce; answers;
    next_call;
    (split; [walk_all; reflexivity |]);
    (split; [intros info Hinfo | intros error Herr Hnull]);
    try discriminate.
  1, 3: injection Hinfo as <-;
    (eexists; split; [reflexivity |]);
    (split; [rewrite !dom_insert_L, dom_singleton_L; set_solver |]);
    (split; [by simplify_map_eq |]); (split; [by simplify_map_eq |]);
    intros k Hk;
    repeat (apply elem_of_union in Hk as [Hk | Hk]);
    apply elem_of_singleton in Hk as ->; by simplify_map_eq.
  all: injection Herr as <-;
    rewrite (read_message_nullish _ Hnull); reduce;
    eexists; split; reflexivity.
Qed.

Lemma test_connection_reports_account_witness :
  (run (test_connection (rt := Sample.runtime) Sample.credentials)
     (Sample.provider (Sample.account "DEPLOYED") [] [] Sample.closed (fun _ => 0))).2
  = Sample.session ++ [GetAccountInformation].
Proof.
  pose proof (test_connection_reports_account (H := Sample.runtime)
                (Sample.provider (Sample.account "DEPLOYED") [] [] Sample.closed
                   (fun _ => 0))
                Sample.credentials (Sample.account "DEPLOYED") Sample.session "acc-1")
    as Hthm.
  feed_by_evaluation Hthm.
  destruct Hthm as (Hrun & _).
  exact Hrun.
Defined.

(** X9. get-positions, once the session is open and the provider has listed
    the positions, for an accountId that can be converted to a string:
    the route answers 200 with one projection per position, in the
    provider's order, each with exactly the twelve fields id, symbol,
    type, volume, openPrice, currentPrice, profit, swap, commission,
    stopLoss, takeProfit and time, read off the position. *)
Theorem get_positions_projection `{Runtime} (w : world) (req_body : obj)
    (account : obj) (pre : trace) (positions : list obj) (accountId_text : string) :
  truthy (get req_body "token") = true ->
  truthy (get req_body "accountId") = true ->
  ToString (get req_body "accountId") = Val accountId_text ->
  run (guarded_session (get req_body "token") (get req_body "accountId")) w
    = (Val account, pre) ->
  respond w GetPositions pre = Val positions ->
  exists projections : list obj,
    run (get_positions req_body) w
      = (Val (Response 200 (JObj {[ "success" := JBool true;
                                    "positions" := JArr (JObj <$> projections) ]})),
         pre ++ [GetPositions])
    /\ length projections = length positions
    /\ forall (i : nat) (pos : obj), positions !! i = Some pos ->
         exists p : obj,
           projections !! i = Some p
           /\ dom p = position_fields
           /\ forall k : string, k ∈ position_fields -> p !! k = Some (get pos k).
Proof.
  intros Htoken Hacc Htext Hs Hpos.
  exists ((fun pos : obj =>
    ({[ "id" := get pos "id"; "symbol" := get pos "symbol"; "type" := get pos "type";
        "volume" := get pos "volume"; "openPrice" := get pos "openPrice";
        "currentPrice" := get pos "currentPrice"; "profit" := get pos "profit";
        "swap" := get pos "swap"; "commission" := get pos "commission";
        "stopLoss" := get pos "stopLoss"; "takeProfit" := get pos "takeProfit";
        "time" := get pos "time" ]} : obj)) <$> positions).
  split; [| split].
  - session_opened Hs;
      open_route; rewrite Htoken, Hacc;
      reduce; answers; rewrite ?Hstate; reduce; answers;
      rewrite <- list_fmap_compose; reflexivity.
  - by rewrite length_fmap.
  - intros i pos Hi. eexists. split.
    + rewrite list_lookup_fmap, Hi. reflexivity.
    + split.
      * unfold position_fields. rewrite !dom_insert_L, dom_singleton_L. set_solver.
      * intros k Hk. unfold position_fields in Hk.
        repeat (apply elem_of_union in Hk as [Hk | Hk]);
          apply elem_of_singleton in Hk as ->; by simplify_map_eq.
Qed.

Lemma get_positions_projection_witness :
  exists projections : list obj,
    run (get_positions (rt := Sample.runtime) Sample.credentials)
      (Sample.provider (Sample.account "DEPLOYED")
         [Sample.position "A"; Sample.position "B"] [] Sample.closed (fun _ => 0))
      = (Val (Response 200 (JObj {[ "success" := JBool true;
                                    "positions" := JArr (JObj <$> projections) ]})),
         Sample.session ++ [GetPositions])
    /\ length projections = 2%nat.
Proof.
  pose proof (get_positions_projection (H := Sample.runtime)
                (Sample.provider (Sample.account "DEPLOYED")
                   [Sample.position "A"; Sample.position "B"] [] Sample.closed
                   (fun _ => 0))
                Sample.credentials (Sample.account "DEPLOYED") Sample.session
                [Sample.position "A"; Sample.position "B"] "acc-1") as Hthm.
  feed_by_evaluation Hthm.
  destruct Hthm as (projections & Hrun & Hlen & _).
  exists projections. split; [exact Hrun | exact Hlen].
Defined.

(** X10. close-position, once the session is open, for a positionId that
    can be converted to a string: [closePosition] is called once, with
    the positionId of the request as it came; when it returns, the route
    answers 200 with the orderId of the result and a fixed message; when
    it rejects with anything but [null] or [undefined], 500. *)
Theorem close_position_closes_once `{Runtime} (w : world) (req_body : obj)
    (account : obj) (pre : trace) (positionId_text : string) :
  truthy (get req_body "token") = true ->
  truthy (get req_body "accountId") = true ->
  truthy (get req_body "positionId") = true ->
  ToString (get req_body "positionId") = Val positionId_text ->
  run (unguarded_session (get req_body "token") (get req_body "accountId")) w
    = (Val account, pre) ->
  (run (close_position req_body) w).2
    = pre ++ [ClosePosition (get req_body "positionId")]
  /\ (forall result : obj,
        respond w (ClosePosition (get req_body "positionId")) pre = Val result ->
        (run (close_position req_body) w).1
          = Val (Response 200 (JObj
                  {[ "success" := JBool true;
                     "result" := JObj
                       {[ "orderId" := get result "orderId";
                          "message" := JStr "Position closed successfully" ]} ]})))
  /\ (forall error : jsval,
        respond w (ClosePosition (get req_body "positionId")) pre = Exc error ->
        nullish error = false ->
        exists res : response,
          (run (close_position req_body) w).1 = Val res /\ status res = 500%nat).
Proof.
  intros Htoken Hacc Hpos Htext Hs.
  session_opened Hs.
  open_route. rewrite Htoken, Hacc, Hpos.
  reduce. answers.
  next_call; answers;
    (split; [walk_all; reflexivity |]);
    (split; [intros result Hresult | intros error Herr Hnull]);
    try discriminate.
  - by injection Hresult as <-.
  - injection Herr as <-.
    rewrite (read_message_nullish _ Hnull). reduce.
    eexists; split; reflexivity.
Qed.

Lemma close_position_closes_once_witness :
  (run (close_position (rt := Sample.runtime)
          (<[ "positionId" := JStr "A" ]> Sample.credentials))
     (Sample.provider (Sample.account "DEPLOYED") [Sample.position "A"] []
        Sample.closed (fun _ => 0))).2
  = Sample.session ++ [ClosePosition (JStr "A")].
Proof.
  pose proof (close_position_closes_once (H := Sample.runtime)
                (Sample.provider (Sample.account "DEPLOYED") [Sample.position "A"] []
                   Sample.closed (fun _ => 0))
                (<[ "positionId" := JStr "A" ]> Sample.credentials)
                (Sample.account "DEPLOYED") Sample.session "A") as Hthm.
  feed_by_evaluation Hthm.
  destruct Hthm as (Hrun & _).
  exact Hrun.
Defined.

(** ** Execute trade, continued *)

(** X11. The stop arguments of an order, for a request whose symbol, volume,
    stopLoss and takeProfit can be converted to strings: a stopLoss or
    takeProfit whose string parses to a number other than 0 is passed on
    as that number; one that parses to 0 is dropped like one that does not
    parse. *)
Theorem stops_forwarded_unless_zero `{Runtime} (w : world) (req_body : obj) (d : string)
    (account : obj) (pre : trace)
    (method : jsval -> number -> jsval -> jsval -> effect)
    (symbol_text volume_text stopLoss_text takeProfit_text : string) :
  truthy (get req_body "token") = true ->
  truthy (get req_body "accountId") = true ->
  truthy (get req_body "symbol") = true ->
  truthy (get req_body "volume") = true ->
  get req_body "direction" = JStr d ->
  d <> "" ->
  ToString (get req_body "volume") = Val volume_text ->
  ToString (get req_body "symbol") = Val symbol_text ->
  ToString (get req_body "stopLoss") = Val stopLoss_text ->
  ToString (get req_body "takeProfit") = Val takeProfit_text ->
  run (guarded_session (get req_body "token") (get req_body "accountId")) w
    = (Val account, pre) ->
  (toUpperCase d = "BUY" /\ method = CreateMarketBuyOrder)
  \/ (toUpperCase d <> "BUY" /\ toUpperCase d = "SELL" /\ method = CreateMarketSellOrder) ->
  let stop (text : string) : jsval :=
    if num_is_zero (parseFloat_string text) || num_is_nan (parseFloat_string text)
    then JUndefined
    else JNum (parseFloat_string text) in
  (run (execute_trade req_body) w).2
    = pre ++ [method (get req_body "symbol") (parseFloat_string volume_text)
                (stop stopLoss_text) (stop takeProfit_text)].
Proof.
  intros Htoken Hacc Hsym Hvol Hdir Hd Hvt Hst Hslt Htpt Hs Hside stop.
  apply truthy_string in Hd.
  assert (Hstop : forall text,
            js_or (JNum (parseFloat_string text)) JUndefined = stop text).
  { intros text. unfold js_or, stop. cbn.
    by destruct (num_is_zero (parseFloat_string text)
                 || num_is_nan (parseFloat_string text)). }
  rewrite <- !Hstop.
  destruct Hside as [[Hup ->] | (Hnb & Hup & ->)];
    session_opened Hs;
    open_route; rewrite Htoken, Hacc, Hsym, Hvol, Hdir, Hd;
    reduce; answers; rewrite ?Hstate; reduce; answers;
    try (apply String.eqb_neq in Hnb; rewrite Hnb; reduce);
    rewrite Hup; reduce; answers; next_call; walk_all; reflexivity.
Qed.

Lemma stops_forwarded_unless_zero_witness :
  (run (execute_trade (rt := Sample.runtime)
          {[ "token" := JStr "t"; "accountId" := JStr "acc-1";
             "symbol" := JStr "EURUSD"; "direction" := JStr "buy";
             "volume" := JStr "2"; "stopLoss" := JStr "0";
             "takeProfit" := JStr "15" ]})
     (Sample.provider (Sample.account "DEPLOYED") [] [] Sample.closed (fun _ => 0))).2
  = [NewMetaApi (JStr "t"); GetAccount (JStr "acc-1");
     GetRPCConnection; Connect; WaitSynchronized;
     CreateMarketBuyOrder (JStr "EURUSD") (num_of_Z 2) JUndefined (JNum (num_of_Z 15))].
Proof.
  pose proof (stops_forwarded_unless_zero (H := Sample.runtime)
                (Sample.provider (Sample.account "DEPLOYED") [] [] Sample.closed
                   (fun _ => 0))
                {[ "token" := JStr "t"; "accountId" := JStr "acc-1";
                   "symbol" := JStr "EURUSD"; "direction" := JStr "buy";
                   "volume" := JStr "2"; "stopLoss" := JStr "0";
                   "takeProfit" := JStr "15" ]}
                "buy" (Sample.account "DEPLOYED") Sample.session
                CreateMarketBuyOrder "EURUSD" "2" "0" "15") as Hthm.
  feed_by_evaluation Hthm.
  assert (Hside : (toUpperCase (Runtime := Sample.runtime) "buy" = "BUY"
                   /\ CreateMarketBuyOrder = CreateMarketBuyOrder)
                  \/ (toUpperCase (Runtime := Sample.runtime) "buy" <> "BUY"
                      /\ toUpperCase (Runtime := Sample.runtime) "buy" = "SELL"
                      /\ CreateMarketBuyOrder = CreateMarketSellOrder))
    by (left; split; reflexivity).
  rewrite (Hthm Hside). vm_compute. reflexivity.
Defined.

(** X12. What execute-trade answers once the order call is made.  When the
    provider accepts the order and the orderId of its result can be
    converted to a string, as the log line converts it: 200 with the
    orderId and positionId of the result under [order] and [position] and
    status 'executed'.  When the orderId cannot be converted: 500 with
    the TypeError's message, the order placed.  When the provider rejects
    the order with anything but [null] or [undefined]: 500 with the
    error's message, or the route's text. *)
Theorem execute_trade_reports_order `{Runtime} (w : world) (req_body : obj)
    (h : trace) (e : effect) :
  (run (execute_trade req_body) w).2 = h ++ [e] ->
  is_order e = true ->
  (forall (result : obj) (orderId_text : string),
      order_answer w e h = Some (Val result) ->
      ToString (get result "orderId") = Val orderId_text ->
      (run (execute_trade req_body) w).1
        = Val (Response 200 (JObj
            {[ "success" := JBool true;
               "result" := JObj {[ "order" := get result "orderId";
                                   "position" := get result "positionId";
                                   "status" := JStr "executed" ]} ]})))
  /\ (forall (result : obj) (thrown : jsval),
        order_answer w e h = Some (Val result) ->
        ToString (get result "orderId") = Exc thrown ->
        (run (execute_trade req_body) w).1
          = Val (Response 500 (JObj
              {[ "success" := JBool false;
                 "error" := JStr "Cannot convert object to primitive value" ]})))
  /\ (forall error : jsval,
        order_answer w e h = Some (Exc error) ->
        nullish error = false ->
        (run (execute_trade req_body) w).1
          = Val (Response 500 (JObj
              {[ "success" := JBool false;
                 "error" := js_or (message_of error)
                              (JStr "Trade execution failed") ]}))).
Proof.
  intros Htr Horder.
  destruct (run (execute_trade req_body) w) as [res tr] eqn:Hr.
  cbn in Htr |- *. revert Hr.
  open_route; autounfold with monad; walk_all;
    intros Hr; injection Hr as <- <-;
    apply trace_ends_with in Htr as [Hlast ->]; cbn in Hlast;
    try discriminate Hlast;
    injection Hlast as <-; try discriminate Horder;
    (split; [intros placed_result text Hans Htext
            | split; [intros placed_result thrown Hans Hthrown
                     | intros rejected Hans Hnull]]);
    cbn in Hans;
    repeat match goal with
           | Ha : respond ?w ?e ?h = _, Hb : Some (respond ?w ?e ?h) = _ |- _ =>
               rewrite Ha in Hb; injection Hb as Hb
           end;
    subst;
    repeat match goal with
           | Ha : ToString ?v = _, Hb : ToString ?v = _ |- _ =>
               rewrite Ha in Hb; first [discriminate Hb | injection Hb as Hb]
           | Ha : ToString _ = Exc _ |- _ => apply ToString_throws in Ha
           | Ha : read_message _ = _, Hn : nullish _ = false |- _ =>
               rewrite (read_message_nullish _ Hn) in Ha;
               first [discriminate Ha | injection Ha as Ha]
           end;
    subst;
    try match goal with
        | Ha : read_message (TypeError _) = _ |- _ =>
            rewrite (read_message_nullish (TypeError _) eq_refl) in Ha;
            first [discriminate Ha | injection Ha as <-]
        end;
    try discriminate; try reflexivity.
Qed.

Lemma execute_trade_reports_order_witness :
  (run (execute_trade (rt := Sample.runtime)
          {[ "token" := JStr "t"; "accountId" := JStr "acc-1";
             "symbol" := JStr "EURUSD"; "direction" := JStr "SELL";
             "volume" := JStr "1" ]})
     (Sample.provider (Sample.account "DEPLOYED") [] [] Sample.closed (fun _ => 0))).1
  = Val (Response 200 (JObj
           {[ "success" := JBool true;
              "result" := JObj
                {[ "order" := get {[ "orderId" := JStr "o1";
                                     "positionId" := JStr "p1" ]} "orderId";
                   "position" := get {[ "orderId" := JStr "o1";
                                        "positionId" := JStr "p1" ]} "positionId";
                   "status" := JStr "executed" ]} ]})).
Proof.
  assert (Htr : (run (execute_trade (rt := Sample.runtime)
                        {[ "token" := JStr "t"; "accountId" := JStr "acc-1";
                           "symbol" := JStr "EURUSD"; "direction" := JStr "SELL";
                           "volume" := JStr "1" ]})
                   (Sample.provider (Sample.account "DEPLOYED") [] [] Sample.closed
                      (fun _ => 0))).2
                = Sample.session
                  ++ [CreateMarketSellOrder (JStr "EURUSD") (num_of_Z 1)
                        JUndefined JUndefined])
    by (vm_compute; reflexivity).
  destruct (execute_trade_reports_order (H := Sample.runtime) _ _ _ _ Htr eq_refl)
    as (Hok & _).
  apply (Hok _ "o1"); reflexivity.
Defined.

(** X13. execute-trade never places more than one order, and it answers 200
    only when it has placed one.  It answers whenever the provider never
    rejects with [null] or [undefined]. *)
Theorem execute_trade_single_order `{Runtime} (w : world) (req_body : obj) :
  (length (List.filter is_order (run (execute_trade req_body) w).2) <= 1)%nat
  /\ (forall res : response,
        (run (execute_trade req_body) w).1 = Val res ->
        status res = 200%nat ->
        length (List.filter is_order (run (execute_trade req_body) w).2) = 1%nat)
  /\ (rejects_with_values w ->
      exists res : response, (run (execute_trade req_body) w).1 = Val res).
Proof.
  open_route; autounfold with monad; walk_all;
    (split;
     [ cbn; lia
     | split;
       [ intros res Hres Hst; try discriminate Hres;
         injection Hres as <-; first [discriminate Hst | reflexivity]
       | intros Hw; first [ eexists; reflexivity | exfalso; catch_reads Hw ] ] ]).
Qed.

Lemma execute_trade_single_order_witness :
  exists res : response,
    (run (execute_trade (rt := Sample.runtime) Sample.buy_order)
       (Sample.broken (JStr "down"))).1 = Val res.
Proof.
  destruct (execute_trade_single_order (H := Sample.runtime)
              (Sample.broken (JStr "down")) Sample.buy_order) as (_ & _ & Hanswers).
  apply Hanswers.
  intros e h v Hrej.
  destruct e; cbn in Hrej; first [discriminate Hrej | by injection Hrej as <-].
Defined.

(** X14. accounts, test-connection, get-positions and get-history only read:
    whatever the request and the provider, they place no order and close
    no position. *)
Theorem read_only_routes_never_trade `{Runtime} (r : route) (w : world) (req_body : obj) :
  read_only r = true ->
  Forall (fun e => is_trade e = false) (run (handler r req_body) w).2.
Proof.
  intros Hr; destruct r; try discriminate Hr; clear Hr;
    open_route; autounfold with monad; walk_all; repeat constructor.
Qed.

Lemma read_only_routes_never_trade_witness :
  Forall (fun e => is_trade e = false)
    (run (handler (rt := Sample.runtime) POST_get_positions Sample.credentials)
       (Sample.provider (Sample.account "UNDEPLOYED") [Sample.position "A"] []
          Sample.closed (fun _ => 0))).2.
Proof.
  apply (read_only_routes_never_trade (H := Sample.runtime) POST_get_positions).
  reflexivity.
Defined.

(** X15. A direction that is present but not a string has no [toUpperCase]:
    when it can be converted to a string for the log, and volume and
    symbol too, the session is opened, the call fails and the route
    answers 500. *)
Theorem execute_trade_direction_not_string `{Runtime} (w : world) (req_body : obj)
    (account : obj) (pre : trace) (direction_text volume_text symbol_text : string) :
  truthy (get req_body "token") = true ->
  truthy (get req_body "accountId") = true ->
  truthy (get req_body "symbol") = true ->
  truthy (get req_body "volume") = true ->
  truthy (get req_body "direction") = true ->
  (forall d : string, get req_body "direction" <> JStr d) ->
  ToString (get req_body "direction") = Val direction_text ->
  ToString (get req_body "volume") = Val volume_text ->
  ToString (get req_body "symbol") = Val symbol_text ->
  run (guarded_session (get req_body "token") (get req_body "accountId")) w
    = (Val account, pre) ->
  run (execute_trade req_body) w
    = (Val (Response 500 (JObj
         {[ "success" := JBool false;
            "error" := JStr "direction.toUpperCase is not a function" ]})), pre).
Proof.
  intros Htoken Hacc Hsym Hvol Hdir Hnot Hdt Hvt Hst Hs.
  session_opened Hs;
    open_route; rewrite Htoken, Hacc, Hsym, Hvol, Hdir;
    reduce; answers; rewrite ?Hstate; reduce; answers;
    destruct (get req_body "direction") eqn:Hd; try reflexivity;
    by destruct (Hnot s).
Qed.

Lemma execute_trade_direction_not_string_witness :
  run (execute_trade (rt := Sample.runtime)
         {[ "token" := JStr "t"; "accountId" := JStr "acc-1";
            "symbol" := JStr "EURUSD"; "direction" := JNum (num_of_Z 1);
            "volume" := JStr "1" ]})
      (Sample.provider (Sample.account "DEPLOYED") [] [] Sample.closed (fun _ => 0))
  = (Val (Response 500 (JObj
       {[ "success" := JBool false;
          "error" := JStr "direction.toUpperCase is not a function" ]})),
     Sample.session).
Proof.
  pose proof (execute_trade_direction_not_string (H := Sample.runtime)
                (Sample.provider (Sample.account "DEPLOYED") [] [] Sample.closed
                   (fun _ => 0))
                {[ "token" := JStr "t"; "accountId" := JStr "acc-1";
                   "symbol" := JStr "EURUSD"; "direction" := JNum (num_of_Z 1);
                   "volume" := JStr "1" ]}
                (Sample.account "DEPLOYED") Sample.session "1" "1" "EURUSD") as Hthm.
  feed_by_evaluation Hthm.
  exact Hthm.
Defined.

(** ** Get history, continued *)

(** X16. How a limit that is present cuts the deals, when it converts to a
    number and that number to the integer [z]: a non-negative [z] keeps
    the first [z] deals (all of them when there are fewer), a negative [z]
    drops the last [-z] deals. *)
Theorem get_history_limit_integer `{Runtime} (w : world) (req_body : obj) (h : trace)
    (startTime endTime : date) (deals : list obj) (limit : jsval) (n : number)
    (z : Z) :
  (run (get_history req_body) w).2 = h ++ [GetHistoryDealsByTimeRange startTime endTime] ->
  respond w (GetHistoryDealsByTimeRange startTime endTime) h = Val deals ->
  req_body !! "limit" = Some limit ->
  limit <> JUndefined ->
  ToNumber limit = Val n ->
  ToIntegerOrInfinity n = Integer z ->
  exists returned : list jsval,
    (run (get_history req_body) w).1
      = Val (Response 200 (JObj {[ "success" := JBool true; "deals" := JArr returned ]}))
    /\ (0 <= z -> returned = take (Z.to_nat z) (deal_projection <$> deals))
    /\ (z < 0 ->
        returned = take (length deals - Z.to_nat (- z)) (deal_projection <$> deals)).
Proof.
  intros Htr Hdeals Hlimit Hdef Hn Hz.
  pose proof (get_history_response w req_body h startTime endTime deals Htr Hdeals)
    as Hres.
  assert (Hgiven : get_default req_body "limit" (JNum (num_of_Z 20)) = limit).
  { unfold get_default. rewrite (get_present _ _ _ Hlimit). by destruct limit. }
  assert (Hslice : slice0 (deal_projection <$> deals) limit
                   = Val (slice_to (deal_projection <$> deals) (Integer z))).
  { unfold slice0. rewrite Hn, Hz. by destruct limit. }
  rewrite Hgiven, Hslice in Hres.
  eexists. split; [exact Hres |].
  split.
  - intros Hpos. by apply slice_to_first.
  - intros Hneg. unfold slice_to. rewrite length_fmap.
    destruct (Z.ltb_spec z 0); [| lia]. f_equal. lia.
Qed.

Lemma get_history_limit_integer_witness :
  exists returned : list jsval,
    (run (get_history (rt := Sample.runtime)
            (<[ "limit" := JNum (num_of_Z (-1)) ]> Sample.credentials))
       (Sample.history_provider 1700000000000)).1
      = Val (Response 200 (JObj {[ "success" := JBool true; "deals" := JArr returned ]}))
    /\ returned = take (length (Sample.deals 50) - 1) (deal_projection <$> Sample.deals 50).
Proof.
  assert (Htr : (run (get_history (rt := Sample.runtime)
                        (<[ "limit" := JNum (num_of_Z (-1)) ]> Sample.credentials))
                   (Sample.history_provider 1700000000000)).2
                = Sample.history_session
                  ++ [GetHistoryDealsByTimeRange
                        (TimeClip (1700000000000 - 30 * 24 * 60 * 60 * 1000))
                        (DateMs 1700000000000)])
    by (apply (history_provider_queried _ _ (num_of_Z (-1))); reflexivity).
  destruct (get_history_limit_integer (H := Sample.runtime) _ _ _ _ _
              (Sample.deals 50) (JNum (num_of_Z (-1))) (num_of_Z (-1)) (-1)
              Htr eq_refl eq_refl)
    as (returned & Hrun & _ & Hneg); [discriminate | reflexivity | reflexivity |].
  exists returned. split; [exact Hrun |]. apply Hneg. lia.
Defined.

(** X17. A startTime that is present but falsy (0, the empty string, null,
    false) is ignored: for an accountId that can be converted to a string,
    the clock is read and the query starts 30 days before, as when
    startTime is absent. *)
Theorem get_history_falsy_startTime `{Runtime} (w : world) (req_body : obj)
    (account : obj) (pre : trace) (startTime : jsval) (accountId_text : string) :
  truthy (get req_body "token") = true ->
  truthy (get req_body "accountId") = true ->
  ToString (get req_body "accountId") = Val accountId_text ->
  req_body !! "startTime" = Some startTime ->
  falsy_json startTime ->
  run (guarded_session (get req_body "token") (get req_body "accountId")) w
    = (Val account, pre) ->
  (run (get_history req_body) w).2
    = pre ++ [DateNow; NewDate;
              GetHistoryDealsByTimeRange
                (TimeClip (respond w DateNow pre - 30 * 24 * 60 * 60 * 1000))
                (DateMs (respond w NewDate (pre ++ [DateNow])))].
Proof.
  intros Htoken Hacc Htext Hstart Hfalsy Hs.
  assert (Hf : truthy (get req_body "startTime") = false).
  { rewrite (get_present _ _ _ Hstart).
    by destruct Hfalsy as [-> | [-> | [-> | [-> | ->]]]]. }
  session_opened Hs;
    open_route; rewrite Htoken, Hacc, Hf;
    reduce; answers; rewrite ?Hstate; reduce; answers;
    next_call; walk_all; reflexivity.
Qed.

Lemma get_history_falsy_startTime_witness :
  (run (get_history (rt := Sample.runtime)
          (<[ "startTime" := JNum (num_of_Z 0) ]> Sample.credentials))
     (Sample.history_provider 1700000000000)).2
  = [NewMetaApi (JStr "t"); GetAccount (JStr "acc-1");
     GetRPCConnection; Connect; WaitSynchronized; DateNow; NewDate;
     GetHistoryDealsByTimeRange (DateMs 1697408000000) (DateMs 1700000000000)].
Proof.
  pose proof (get_history_falsy_startTime (H := Sample.runtime)
                (Sample.history_provider 1700000000000)
                (<[ "startTime" := JNum (num_of_Z 0) ]> Sample.credentials)
                (Sample.account "DEPLOYED") Sample.session
                (JNum (num_of_Z 0)) "acc-1") as Hthm.
  feed_by_evaluation Hthm.
  assert (Hfalsy : falsy_json (JNum (num_of_Z 0)))
    by (right; right; right; left; reflexivity).
  specialize (Hthm Hfalsy). feed_by_evaluation Hthm.
  rewrite Hthm. vm_compute. reflexivity.
Defined.

(** X18. With a truthy startTime that [new Date] accepts, and an accountId
    that can be converted to a string, the query starts at
    [new Date(startTime)] and ends at [new Date()]: [Date.now()] is not
    called, and the clock is read once. *)
Theorem get_history_given_startTime `{Runtime} (w : world) (req_body : obj)
    (account : obj) (pre : trace) (accountId_text : string) (start : date) :
  truthy (get req_body "token") = true ->
  truthy (get req_body "accountId") = true ->
  ToString (get req_body "accountId") = Val accountId_text ->
  truthy (get req_body "startTime") = true ->
  new_Date_of (get req_body "startTime") = Val start ->
  run (guarded_session (get req_body "token") (get req_body "accountId")) w
    = (Val account, pre) ->
  (run (get_history req_body) w).2
    = pre ++ [NewDate;
              GetHistoryDealsByTimeRange start (DateMs (respond w NewDate pre))].
Proof.
  intros Htoken Hacc Htext Hstart Hdate Hs.
  session_opened Hs;
    open_route; rewrite Htoken, Hacc, Hstart;
    reduce; answers; rewrite ?Hstate; reduce; answers;
    rewrite Hdate; reduce;
    next_call; walk_all; reflexivity.
Qed.

Lemma get_history_given_startTime_witness :
  (run (get_history (rt := Sample.runtime)
          (<[ "startTime" := JNum (num_of_Z 1600000000000) ]> Sample.credentials))
     (Sample.history_provider 1700000000000)).2
  = [NewMetaApi (JStr "t"); GetAccount (JStr "acc-1");
     GetRPCConnection; Connect; WaitSynchronized; NewDate;
     GetHistoryDealsByTimeRange (DateMs 1600000000000) (DateMs 1700000000000)].
Proof.
  pose proof (get_history_given_startTime (H := Sample.runtime)
                (Sample.history_provider 1700000000000)
                (<[ "startTime" := JNum (num_of_Z 1600000000000) ]> Sample.credentials)
                (Sample.account "DEPLOYED") Sample.session "acc-1"
                (DateMs 1600000000000)) as Hthm.
  feed_by_evaluation Hthm.
  rewrite Hthm. vm_compute. reflexivity.
Defined.

(** ** Credentials *)

(** X19. A route that does anything starts by constructing the client with
    the token of the request; it constructs no second client, and every
    account it looks up is the accountId of the request. *)
Theorem credentials_forwarded `{Runtime} (r : route) (w : world) (req_body : obj) :
  (run (handler r req_body) w).2 = []
  \/ exists rest : trace,
       (run (handler r req_body) w).2 = NewMetaApi (get req_body "token") :: rest
       /\ Forall (uses_credentials_of req_body) rest.
Proof.
  destruct r; open_route; autounfold with monad; walk_all.
  all: try (loop_ran; walk_all).
  all: first [ by left | right; eexists; split; [reflexivity |] ].
  all: repeat (apply Forall_cons; split; [by cbn |]).
  all: try apply Forall_nil_2.
  all: unfold closes; apply Forall_fmap, Forall_forall; by intros.
Qed.

(** ** Values that cannot be converted *)

(** X20. A request value the log line of a route cannot convert to a string
    (an object with a [toString] entry, say) stops the request before the
    provider is contacted: accountId in test-connection, get-positions,
    close-all-positions and get-history, positionId in close-position,
    and direction, volume or symbol in execute-trade.  The route answers
    500 with the TypeError's message and has called nothing. *)
Theorem unconvertible_logged_value_rejected `{Runtime} (r : route) (w : world)
    (req_body : obj) (field : string) (thrown : jsval) :
  (forall k : string, k ∈ required_fields r -> truthy (get req_body k) = true) ->
  match r with
  | POST_accounts => False
  | POST_execute_trade => field = "direction" \/ field = "volume" \/ field = "symbol"
  | POST_close_position => field = "positionId"
  | _ => field = "accountId"
  end ->
  ToString (get req_body field) = Exc thrown ->
  run (handler r req_body) w
    = (Val (Response 500 (JObj
         {[ "success" := JBool false;
            "error" := JStr "Cannot convert object to primitive value" ]})), []).
Proof.
  intros Hfields Hfield Hthrown.
  assert (Htruthy : forall k, k ∈ required_fields r ->
            negb (truthy (get req_body k)) = false)
    by (intros k Hk; by rewrite (Hfields k Hk)).
  destruct r; cbn in Hfield; try done;
    open_route;
    rewrite ?(Htruthy "token"), ?(Htruthy "accountId"), ?(Htruthy "symbol"),
      ?(Htruthy "direction"), ?(Htruthy "volume"), ?(Htruthy "positionId")
      by (cbn; repeat first [apply list_elem_of_here | apply list_elem_of_further]);
    cbn [orb];
    repeat match type of Hfield with
           | _ \/ _ => destruct Hfield as [Hfield | Hfield]
           end;
    subst field; reduce;
    repeat match goal with
           | |- context [ToString ?v] =>
               lazymatch goal with
               | Hv : ToString v = _ |- _ => rewrite Hv
               | _ => let Hv := fresh "Hv" in destruct (ToString v) eqn:Hv
               end; reduce
           end;
    repeat match goal with
           | Hv : ToString _ = Exc _ |- _ => apply ToString_throws in Hv; subst
           end;
    rewrite (read_message_nullish (TypeError _) eq_refl); reflexivity.
Qed.

Lemma unconvertible_logged_value_rejected_witness :
  run (handler (rt := Sample.runtime) POST_get_positions
         (<[ "accountId" := Sample.unconvertible ]> Sample.credentials))
      (Sample.provider (Sample.account "DEPLOYED") [] [] Sample.closed (fun _ => 0))
  = (Val (Response 500 (JObj
       {[ "success" := JBool false;
          "error" := JStr "Cannot convert object to primitive value" ]})), []).
Proof.
  apply (unconvertible_logged_value_rejected (H := Sample.runtime) POST_get_positions
           _ _ "accountId" (TypeError "Cannot convert object to primitive value")).
  - intros k Hk. cbn in Hk.
    repeat (apply elem_of_cons in Hk as [-> | Hk]; [reflexivity |]).
    by apply elem_of_nil in Hk.
  - reflexivity.
  - reflexivity.
Defined.

(** X21. A rejection with [null] or [undefined] at the first call leaves the
    handler without an answer: the [catch] block throws a TypeError on
    reading [message], and nothing is written to the response. *)
Theorem nullish_rejection_unanswered `{Runtime} (r : route) (w : world)
    (req_body : obj) (error : jsval) :
  (forall k : string, k ∈ required_fields r -> truthy (get req_body k) = true) ->
  (forall k : string, k ∈ required_fields r -> exists text : string,
      ToString (get req_body k) = Val text) ->
  respond w (NewMetaApi (get req_body "token")) [] = Exc error ->
  nullish error = true ->
  exists message : string,
    run (handler r req_body) w
      = (Exc (TypeError message), [NewMetaApi (get req_body "token")]).
Proof.
  intros Hfields Htexts Hrej Hnull.
  assert (Htruthy : forall k, k ∈ required_fields r ->
            negb (truthy (get req_body k)) = false)
    by (intros k Hk; by rewrite (Hfields k Hk)).
  assert (Htext : forall k, k ∈ required_fields r ->
            ToString (get req_body k)
            = Val (match ToString (get req_body k) with Val s => s | Exc _ => "" end)).
  { intros k Hk. by destruct (Htexts k Hk) as [text ->]. }
  destruct r; open_route;
    rewrite ?(Htruthy "token"), ?(Htruthy "accountId"), ?(Htruthy "symbol"),
      ?(Htruthy "direction"), ?(Htruthy "volume"), ?(Htruthy "positionId")
      by (cbn; repeat first [apply list_elem_of_here | apply list_elem_of_further]);
    cbn [orb]; reduce;
    rewrite ?(Htext "accountId"), ?(Htext "symbol"),
      ?(Htext "direction"), ?(Htext "volume"), ?(Htext "positionId")
      by (cbn; repeat first [apply list_elem_of_here | apply list_elem_of_further]);
    reduce; rewrite Hrej; reduce;
    destruct error; try discriminate Hnull; eexists; reflexivity.
Qed.

Lemma nullish_rejection_unanswered_witness :
  exists message : string,
    run (handler (rt := Sample.runtime) POST_accounts Sample.credentials)
      (Sample.broken JNull)
    = (Exc (TypeError message), [NewMetaApi (JStr "t")]).
Proof.
  apply (nullish_rejection_unanswered (H := Sample.runtime) POST_accounts
           (Sample.broken JNull) Sample.credentials JNull).
  - intros k Hk. cbn in Hk.
    repeat (apply elem_of_cons in Hk as [-> | Hk]; [reflexivity |]).
    by apply elem_of_nil in Hk.
  - intros k Hk. cbn in Hk.
    repeat (apply elem_of_cons in Hk as [-> | Hk]; [by eexists |]).
    by apply elem_of_nil in Hk.
  - reflexivity.
  - reflexivity.
Defined.
